(** * Room EQ pipeline view ([public/src/room.js])

    A shallow embedding of the read-only pipeline visualiser: the formatting
    of one processing stage, the construction of nodes and lanes, the drawing
    of wires between consecutive nodes, and the render / refresh life cycle
    of the page.

    Conventions of the embedding.
    - A stage descriptor is an arbitrary JavaScript value ([value]); an object
      is the list of its own enumerable properties in [Object.keys] order.
    - A JavaScript exception is a value of [exn]; a function that may throw
      returns a [result].
    - Numbers that come from the configuration or from measured geometry are
      kept abstract ([JSNumber]): the development holds for every
      implementation of [Number] and [Math].  Loop counters and the fixed
      layout constants are integers, on which the arithmetic of the source is
      exact.
    - The document is a tree of [element]s; markup assigned through
      [innerHTML] is kept as its source text. *)

From Stdlib Require Import String Ascii List Bool ZArith Lia.
From Stdlib Require Import DecimalString DecimalZ.
Import ListNotations.
Open Scope string_scope.

Set Implicit Arguments.

(** ** Exceptions and the result monad *)

Record exn : Type := Error { message : string }.

Inductive result (A : Type) : Type :=
| Ok (a : A)
| Throw (e : exn).
Arguments Ok {A} a.
Arguments Throw {A} e.

Definition bind {A B : Type} (r : result A) (k : A -> result B) : result B :=
  match r with
  | Ok a => k a
  | Throw e => Throw e
  end.

Notation "x <- r ;; k" := (bind r (fun x => k))
  (at level 100, r at next level, right associativity).

(** ** Text helpers *)

Definition quote : string := String (ascii_of_nat 34) EmptyString.
Definition newline : string := String (ascii_of_nat 10) EmptyString.

Fixpoint spaces (n : nat) : string :=
  match n with
  | O => EmptyString
  | S k => String " " (spaces k)
  end.

(** A line break of a template literal followed by [n] columns of indentation. *)
Definition br (n : nat) : string := newline ++ spaces n.

(** Decimal text of a non-negative integer (array indices, channel numbers). *)
Definition nat_to_string (n : nat) : string :=
  NilEmpty.string_of_uint (Nat.to_uint n).

(** Decimal text of an integer, as [Number::toString] prints it. *)
Definition Z_to_string (z : Z) : string :=
  NilEmpty.string_of_int (Z.to_int z).

(** [String.prototype.toUpperCase] on the ASCII letters; other code units are
    left as they are. *)
Definition upper_ascii (c : ascii) : ascii :=
  let n := nat_of_ascii c in
  if andb (Nat.leb 97 n) (Nat.leb n 122) then ascii_of_nat (n - 32) else c.

Fixpoint toUpperCase (s : string) : string :=
  match s with
  | EmptyString => EmptyString
  | String c rest => String (upper_ascii c) (toUpperCase rest)
  end.

(** ** JavaScript numbers

    The operations of [Number] and [Math] that the page uses. *)

Class JSNumber (num : Type) : Type := {
  num_of_nat : nat -> num;             (* a length, or an integer literal *)
  num_to_string : num -> string;       (* Number::toString *)
  num_to_boolean : num -> bool;        (* ToBoolean: false on 0 and NaN *)
  num_strict_eq : num -> num -> bool;  (* === on two numbers *)
  num_add : num -> num -> num;
  num_sub : num -> num -> num;
  num_mul : num -> num -> num;
  num_div : num -> num -> num;
  num_sqrt : num -> num;               (* Math.sqrt *)
  num_atan2 : num -> num -> num;       (* Math.atan2 *)
  num_PI : num                         (* Math.PI *)
}.

(** ** JavaScript values *)

#[warnings="-register-all"]
Inductive value (num : Type) : Type :=
| VUndef
| VNull
| VBool (b : bool)
| VNum (n : num)
| VStr (s : string)
| VArr (items : list (value num))
| VObj (props : list (string * value num)).
Arguments VUndef {num}.
Arguments VNull {num}.
Arguments VBool {num} b.
Arguments VNum {num} n.
Arguments VStr {num} s.
Arguments VArr {num} items.
Arguments VObj {num} props.

Fixpoint lookup {A : Type} (k : string) (props : list (string * A)) : option A :=
  match props with
  | [] => None
  | (k', v) :: rest => if String.eqb k' k then Some v else lookup k rest
  end.

Fixpoint find_key (p : string -> bool) (keys : list string) : option string :=
  match keys with
  | [] => None
  | k :: rest => if p k then Some k else find_key p rest
  end.

Section Values.
Context {num : Type} `{JSNumber num}.

Local Abbreviation value := (value num).

Definition TypeError (what : string) : exn := Error what.

(** Property read [v.k] / [v[k]].  Reading a property of [undefined] or
    [null] throws.  Only own properties (and [length]) are looked up: none
    of the names used by the page ([type], [device], [format], [sources],
    [parameters], [freq], [gain]) is inherited from a prototype. *)
Definition Get (v : value) (k : string) : result value :=
  match v with
  | VUndef => Throw (TypeError ("Cannot read properties of undefined (reading '" ++ k ++ "')"))
  | VNull => Throw (TypeError ("Cannot read properties of null (reading '" ++ k ++ "')"))
  | VObj props =>
      match lookup k props with
      | Some x => Ok x
      | None => Ok VUndef
      end
  | VArr items =>
      if String.eqb k "length" then Ok (VNum (num_of_nat (List.length items)))
      else Ok VUndef
  | VStr s =>
      if String.eqb k "length" then Ok (VNum (num_of_nat (String.length s)))
      else Ok VUndef
  | VBool _ | VNum _ => Ok VUndef
  end.

(** [ToString], as a template literal applies it to a substitution. *)
Fixpoint ToString (v : value) : string :=
  match v with
  | VUndef => "undefined"
  | VNull => "null"
  | VBool true => "true"
  | VBool false => "false"
  | VNum n => num_to_string n
  | VStr s => s
  | VObj _ => "[object Object]"
  | VArr items =>
      (fix join (l : list value) : string :=
         match l with
         | [] => EmptyString
         | x :: rest =>
             let sx := match x with
                       | VUndef | VNull => EmptyString
                       | _ => ToString x
                       end in
             match rest with
             | [] => sx
             | _ :: _ => sx ++ "," ++ join rest
             end
         end) items
  end.

(** [ToBoolean], as [if (v)] and [!v] apply it. *)
Definition ToBoolean (v : value) : bool :=
  match v with
  | VUndef | VNull => false
  | VBool b => b
  | VNum n => num_to_boolean n
  | VStr s => negb (String.eqb s EmptyString)
  | VArr _ | VObj _ => true
  end.

(** [v === 'literal']. *)
Definition is_string (v : value) (s : string) : bool :=
  match v with
  | VStr t => String.eqb t s
  | _ => false
  end.

(** [v === 1] and the like. *)
Definition is_number (v : value) (n : nat) : bool :=
  match v with
  | VNum x => num_strict_eq x (num_of_nat n)
  | _ => false
  end.

(** [v !== undefined]. *)
Definition is_defined (v : value) : bool :=
  match v with
  | VUndef => false
  | _ => true
  end.

(** [Object.keys(v)]. *)
Definition Object_keys (v : value) : result (list string) :=
  match v with
  | VUndef | VNull => Throw (TypeError "Cannot convert undefined or null to object")
  | VObj props => Ok (map fst props)
  | VArr items => Ok (map nat_to_string (seq 0 (List.length items)))
  | VStr s => Ok (map nat_to_string (seq 0 (String.length s)))
  | VBool _ | VNum _ => Ok []
  end.

(** [v.toUpperCase()]: only a string has the method. *)
Definition call_toUpperCase (v : value) : result string :=
  match v with
  | VUndef => Throw (TypeError "Cannot read properties of undefined (reading 'toUpperCase')")
  | VNull => Throw (TypeError "Cannot read properties of null (reading 'toUpperCase')")
  | VStr s => Ok (toUpperCase s)
  | _ => Throw (TypeError "component.type.toUpperCase is not a function")
  end.

(** ** formatNodeContent *)

(** [<div class="cls">inner</div>] *)
Definition div (cls inner : string) : string :=
  "<div class=" ++ quote ++ cls ++ quote ++ ">" ++ inner ++ "</div>".

Definition detail (inner : string) : string := div "nodeDetail" inner.
Definition detail_small (inner : string) : string := div "nodeDetail small" inner.

Definition formatFilter (component : value) : result string :=
  keys <- Object_keys component ;;
  match find_key (fun k => negb (String.eqb k "type")) keys with
  | None => Ok (detail "Unknown")
  | Some filterName =>
      if String.eqb filterName EmptyString then Ok (detail "Unknown")
      else
        filter <- Get component filterName ;;
        params <- Get filter "parameters" ;;
        ftype <- Get filter "type" ;;
        if is_string ftype "Biquad" then
          let details := detail filterName in
          ptype <- Get params "type" ;;
          let details := details ++ detail_small (ToString ptype) in
          freq <- Get params "freq" ;;
          let details :=
            if ToBoolean freq
            then details ++ detail_small (ToString freq ++ " Hz")
            else details in
          gain <- Get params "gain" ;;
          let details :=
            if is_defined gain
            then details ++ detail_small (ToString gain ++ " dB")
            else details in
          Ok details
        else if is_string ftype "Gain" then
          gain <- Get params "gain" ;;
          Ok (br 20 ++ detail filterName ++
              br 20 ++ detail_small ("Gain: " ++ ToString gain ++ " dB") ++
              br 16)
        else if is_string ftype "Conv" then
          Ok (br 20 ++ detail filterName ++
              br 20 ++ detail_small "Convolution" ++
              br 16)
        else
          Ok (br 20 ++ detail filterName ++
              br 20 ++ detail_small (ToString ftype) ++
              br 16)
  end.

Definition formatNodeContent (component : value) : result string :=
  ty <- Get component "type" ;;
  if is_string ty "input" || is_string ty "output" then
    device <- Get component "device" ;;
    name <- Get device "device" ;;
    format <- Get device "format" ;;
    Ok (br 16 ++ detail (ToString name) ++
        br 16 ++ detail_small (ToString format) ++
        br 12)
  else if is_string ty "mixer" then
    sources <- Get component "sources" ;;
    sourceCount <- Get sources "length" ;;
    Ok (br 16 ++ detail (ToString sourceCount ++ " source" ++
                         (if negb (is_number sourceCount 1) then "s" else EmptyString)) ++
        br 12)
  else if is_string ty "filter" then
    formatFilter component
  else
    Ok (detail "Unknown").

End Values.

(** ** The document tree *)

#[warnings="-register-all"]
Inductive element : Type :=
| Element (tag : string) (cls : string)
          (attrs : list (string * string)) (css : list (string * string))
          (children : list node)
with node : Type :=
| ElementNode (e : element)   (* a child appended with appendChild *)
| TextNode (s : string)       (* the text set through textContent *)
| Markup (html : string).     (* the markup set through innerHTML *)

Definition tagName (e : element) : string :=
  let (t, _, _, _, _) := e in t.
Definition className (e : element) : string :=
  let (_, c, _, _, _) := e in c.
Definition attributes (e : element) : list (string * string) :=
  let (_, _, a, _, _) := e in a.
Definition style (e : element) : list (string * string) :=
  let (_, _, _, s, _) := e in s.
Definition childNodes (e : element) : list node :=
  let (_, _, _, _, cs) := e in cs.

(** The element children, in document order ([Element.children]). *)
Fixpoint elements (l : list node) : list element :=
  match l with
  | [] => []
  | ElementNode e :: rest => e :: elements rest
  | _ :: rest => elements rest
  end.

Definition createElement (tag : string) : element :=
  Element tag EmptyString [] [] [].

Definition set_className (e : element) (c : string) : element :=
  let (t, _, a, s, cs) := e in Element t c a s cs.

Fixpoint assign (k v : string) (l : list (string * string)) : list (string * string) :=
  match l with
  | [] => [(k, v)]
  | (k', v') :: rest =>
      if String.eqb k' k then (k, v) :: rest else (k', v') :: assign k v rest
  end.

Definition setAttribute (e : element) (k v : string) : element :=
  let (t, c, a, s, cs) := e in Element t c (assign k v a) s cs.


(** [e.style.k = v] *)
Definition set_style (e : element) (k v : string) : element :=
  let (t, c, a, s, cs) := e in Element t c a (assign k v s) cs.


Definition appendChild (parent child : element) : element :=
  let (t, c, a, s, cs) := parent in
  Element t c a s (cs ++ [ElementNode child])%list.

(** The container after the given elements were appended in order. *)
Definition appendChildren (parent : element) (l : list element) : element :=
  fold_left appendChild l parent.

Definition set_textContent (e : element) (text : string) : element :=
  let (t, c, a, s, _) := e in Element t c a s [TextNode text].

Definition set_innerHTML (e : element) (html : string) : element :=
  let (t, c, a, s, _) := e in
  Element t c a s (if String.eqb html EmptyString then [] else [Markup html]).

Definition textContent (e : element) : option string :=
  match childNodes e with
  | [TextNode s] => Some s
  | _ => None
  end.

Definition innerHTML (e : element) : option string :=
  match childNodes e with
  | [] => Some EmptyString
  | [Markup s] => Some s
  | _ => None
  end.

(** The class names of a [className], which separates them by spaces. *)
Fixpoint class_tokens (s : string) (cur : string) : list string :=
  match s with
  | EmptyString => if String.eqb cur EmptyString then [] else [cur]
  | String c rest =>
      if Ascii.eqb c " " then
        if String.eqb cur EmptyString then class_tokens rest EmptyString
        else cur :: class_tokens rest EmptyString
      else class_tokens rest (cur ++ String c EmptyString)
  end.

Definition has_class (c : string) (e : element) : bool :=
  existsb (String.eqb c) (class_tokens (className e) EmptyString).

(** [e.querySelectorAll('.c')]: the descendant elements of class [c], in
    document order.  Markup kept as text contributes no element. *)
Fixpoint querySelectorAll (c : string) (e : element) : list element :=
  let (_, _, _, _, cs) := e in
  (fix walk (l : list node) : list element :=
     match l with
     | [] => []
     | ElementNode x :: rest =>
         ((if has_class c x then [x] else []) ++ querySelectorAll c x ++ walk rest)%list
     | _ :: rest => walk rest
     end) cs.

(** The tree after [x.remove()] was called on every descendant of class [c]. *)
Fixpoint remove_all (c : string) (e : element) : element :=
  let (t, k, a, s, cs) := e in
  Element t k a s
    ((fix walk (l : list node) : list node :=
        match l with
        | [] => []
        | ElementNode x :: rest =>
            if has_class c x then walk rest
            else ElementNode (remove_all c x) :: walk rest
        | other :: rest => other :: walk rest
        end) cs).

(** The two walks over a list of child nodes, by themselves. *)
Definition walk_query (c : string) : list node -> list element :=
  fix walk (l : list node) : list element :=
    match l with
    | [] => []
    | ElementNode x :: rest =>
        ((if has_class c x then [x] else []) ++ querySelectorAll c x ++ walk rest)%list
    | _ :: rest => walk rest
    end.

Definition walk_remove (c : string) : list node -> list node :=
  fix walk (l : list node) : list node :=
    match l with
    | [] => []
    | ElementNode x :: rest =>
        if has_class c x then walk rest
        else ElementNode (remove_all c x) :: walk rest
    | other :: rest => other :: walk rest
    end.

(** Elements, by the depth of their tree. *)
Fixpoint depth (e : element) : nat :=
  let (_, _, _, _, cs) := e in
  S ((fix walk (l : list node) : nat :=
        match l with
        | [] => 0
        | ElementNode x :: rest => Nat.max (depth x) (walk rest)
        | _ :: rest => walk rest
        end) cs).

(** ** Layout constants *)

Definition nodeWidth : Z := 120.
Definition nodeHeight : Z := 80.
Definition nodeSpacing : Z := 20.
Definition laneHeight : Z := 120.

(** [n + 'px'] for an integer [n]. *)
Definition px (n : Z) : string := Z_to_string n ++ "px".


(** The rectangle returned by [getBoundingClientRect]. *)
Record DOMRect (num : Type) : Type := {
  rect_left : num;
  rect_top : num;
  rect_right : num;
  rect_bottom : num;
  rect_width : num;
  rect_height : num
}.

Section Pipeline.
Context {num : Type} `{JSNumber num}.

(** The layout of the document at the time wires are drawn: what
    [getBoundingClientRect] returns for an element. *)
Variable getBoundingClientRect : element -> DOMRect num.

(** ** createNode *)

Definition createNode (component : value num) (channelNo : nat) (xPos : Z)
  : result element :=
  let node := createElement "div" in
  let node := set_className node "node" in
  ty <- Get component "type" ;;
  let node := setAttribute node "data-type" (ToString ty) in
  let node := setAttribute node "data-channel" (nat_to_string channelNo) in
  let node := set_style node "left" (px xPos) in
  let node := set_style node "width" (px nodeWidth) in
  let node := set_style node "height" (px nodeHeight) in
  (* Node header *)
  let header := createElement "div" in
  let header := set_className header "nodeHeader" in
  upper <- call_toUpperCase ty ;;
  let header := set_textContent header upper in
  let node := appendChild node header in
  (* Node content *)
  let content := createElement "div" in
  let content := set_className content "nodeContent" in
  html <- formatNodeContent component ;;
  let content := set_innerHTML content html in
  let node := appendChild node content in
  (* Add connectors *)
  let node :=
    if negb (is_string ty "input") then
      let connectorLeft := createElement "div" in
      let connectorLeft := set_className connectorLeft "connector left" in
      appendChild node connectorLeft
    else node in
  let node :=
    if negb (is_string ty "output") then
      let connectorRight := createElement "div" in
      let connectorRight := set_className connectorRight "connector right" in
      appendChild node connectorRight
    else node in
  Ok node.

(** ** createWire

    [parent] is [fromNode.parentElement]: the container the node was
    appended to. *)
Definition createWire (parent fromNode toNode : element) : element :=
  let wire := createElement "div" in
  let wire := set_className wire "wire" in
  (* Get connector positions *)
  let fromRect := getBoundingClientRect fromNode in
  let toRect := getBoundingClientRect toNode in
  let containerRect := getBoundingClientRect parent in
  (* Calculate positions relative to container *)
  let fromX := num_sub (rect_right fromRect) (rect_left containerRect) in
  let fromY :=
    num_sub (num_add (rect_top fromRect) (num_div (rect_height fromRect) (num_of_nat 2)))
            (rect_top containerRect) in
  let toX := num_sub (rect_left toRect) (rect_left containerRect) in
  let toY :=
    num_sub (num_add (rect_top toRect) (num_div (rect_height toRect) (num_of_nat 2)))
            (rect_top containerRect) in
  (* Calculate wire geometry *)
  let deltaX := num_sub toX fromX in
  let deltaY := num_sub toY fromY in
  let length := num_sqrt (num_add (num_mul deltaX deltaX) (num_mul deltaY deltaY)) in
  let angle := num_div (num_mul (num_atan2 deltaY deltaX) (num_of_nat 180)) num_PI in
  (* Position and style the wire *)
  let wire := set_style wire "left" (num_to_string fromX ++ "px") in
  let wire := set_style wire "top" (num_to_string fromY ++ "px") in
  let wire := set_style wire "width" (num_to_string length ++ "px") in
  let wire := set_style wire "transform" ("rotate(" ++ num_to_string angle ++ "deg)") in
  wire.

(** ** drawWires *)

(** The loop of [drawWires]: one wire per consecutive pair, appended to
    the container in order. *)
Fixpoint appendWires (container : element) (nodes : list element) : element :=
  match nodes with
  | fromNode :: ((toNode :: _) as rest) =>
      let wire := createWire container fromNode toNode in
      appendWires (appendChild container wire) rest
  | _ => container
  end.

(** The nodes are measured as they were handed over: in [createLane] they
    are the children of [container], and none of them has a wire inside. *)
Definition drawWires (container : element) (nodes : list element) : element :=
  (* Remove existing wires *)
  let container := remove_all "wire" container in
  (* Draw wire between each consecutive pair *)
  appendWires container nodes.

(** An element is a wire when [createWire] made it. *)
Definition is_wire (w : element) : Prop :=
  exists parent fromNode toNode, w = createWire parent fromNode toNode.

(** ** createLane *)

(** The loop of [createLane]: the nodes of the stages from running offset
    [xPos] on. *)
Fixpoint createNodes (components : list (value num)) (channelNo : nat) (xPos : Z)
  : result (list element) :=
  match components with
  | [] => Ok []
  | component :: rest =>
      node <- createNode component channelNo xPos ;;
      nodes <- createNodes rest channelNo (xPos + (nodeWidth + nodeSpacing)) ;;
      Ok (node :: nodes)
  end.

(** The callback handed to [requestAnimationFrame]: it closes over the
    lane's node container and over [nodes]. *)
Record frameRequest : Type := FrameRequest { frame_nodes : list element }.


Definition createLane (channelNo : nat) (components : list (value num))
  : result (element * frameRequest) :=
  let lane := createElement "div" in
  let lane := set_className lane "lane" in
  let lane := setAttribute lane "data-channel" (nat_to_string channelNo) in
  let lane := set_style lane "height" (px laneHeight) in
  (* Lane label *)
  let label := createElement "div" in
  let label := set_className label "laneLabel" in
  let label := set_textContent label ("Channel " ++ nat_to_string channelNo) in
  let lane := appendChild lane label in
  (* Container for nodes *)
  let container := createElement "div" in
  let container := set_className container "nodeContainer" in
  (* Create nodes for each component *)
  nodes <- createNodes components channelNo 10 ;;
  let container := fold_left appendChild nodes container in
  (* the lane holds the container it was given before the loop ran *)
  let lane := appendChild lane container in
  Ok (lane, FrameRequest nodes).


End Pipeline.

(** ** The page: module state, render and refresh *)

(** The configuration collaborator reached through [window.parent.DSP]. *)
Record dsp : Type := { connected : bool }.

Section Page.
Context {num : Type} `{JSNumber num}.

(** The linearized configuration: per channel, its ordered stages. *)
Definition channels : Type := list (list (value num)).

(** The module variables [DSP] and [lanes], the element with id [editor]
    ([None] when the document has none) and the animation frame callbacks
    requested so far.  A lane is held as it was built; what its animation
    frame does to its container is [animationFrame]. *)
Record page : Type := {
  DSP : option dsp;
  lanes : list element;
  editor : option element;
  frames : list frameRequest
}.

Definition showError (msg : string) (s : page) : page :=
  match editor s with
  | Some ed =>
      let html :=
        br 12 ++ "<div class=" ++ quote ++ "error" ++ quote ++ ">" ++
        br 16 ++ "<h3>Error</h3>" ++
        br 16 ++ "<p>" ++ msg ++ "</p>" ++
        br 12 ++ "</div>" ++
        br 8 in
      {| DSP := DSP s; lanes := lanes s;
         editor := Some (set_innerHTML ed html); frames := frames s |}
  | None => s
  end.

(** [renderPipeline] up to [await DSP.linearizeConfig()]: [Some r] when the
    call settles before it suspends. *)
Definition renderPipeline_begin (s : page) : page * option (result unit) :=
  match editor s with
  | None => (s, Some (Ok tt))
  | Some ed =>
      let s := {| DSP := DSP s; lanes := [];
                  editor := Some (set_innerHTML ed EmptyString);
                  frames := frames s |} in
      match DSP s with
      | None =>
          (s, Some (Throw (TypeError
                "Cannot read properties of undefined (reading 'linearizeConfig')")))
      | Some _ => (s, None)
      end
  end.

(** The loop of [renderPipeline], from channel [channelNo] on. *)
Fixpoint appendLanes (chans : channels) (channelNo : nat) (s : page)
  : page * result unit :=
  match chans with
  | [] => (s, Ok tt)
  | components :: rest =>
      match createLane channelNo components with
      | Throw e => (s, Throw e)
      | Ok (lane, request) =>
          appendLanes rest (S channelNo)
            {| DSP := DSP s;
               lanes := (lanes s ++ [lane])%list;
               editor := option_map (fun ed => appendChild ed lane) (editor s);
               frames := (frames s ++ [request])%list |}
      end
  end.

(** [renderPipeline] from the point where [DSP.linearizeConfig()] settled
    with [linearize]. *)
Definition renderPipeline_resume (linearize : result channels) (s : page)
  : page * result unit :=
  match linearize with
  | Throw e => (s, Throw e)
  | Ok chans => appendLanes chans 0 s
  end.

Definition renderPipeline (linearize : result channels) (s : page)
  : page * result unit :=
  match renderPipeline_begin s with
  | (s, Some r) => (s, r)
  | (s, None) => renderPipeline_resume linearize s
  end.

(** [roomOnLoad], given [window.parent.DSP] and how the two requests
    settle.  The function itself never rejects. *)
Definition roomOnLoad (parentDSP : option dsp)
           (download : result unit) (linearize : result channels) (s : page)
  : page :=
  let s := {| DSP := parentDSP; lanes := lanes s;
              editor := editor s; frames := frames s |} in
  let connectedDSP := match parentDSP with
                      | Some d => connected d
                      | None => false
                      end in
  if negb connectedDSP then
    showError "Not connected to DSP. Please connect from the Connections page." s
  else
    match download with
    | Throw error =>
        showError ("Error loading DSP configuration: " ++ message error) s
    | Ok _ =>
        match renderPipeline linearize s with
        | (s, Ok _) => s
        | (s, Throw error) =>
            showError ("Error loading DSP configuration: " ++ message error) s
        end
    end.

(** [refreshPipeline], given how the two requests settle: the final page
    and how the returned promise settles. *)
Definition refreshPipeline (download : result unit) (linearize : result channels)
           (s : page) : page * result unit :=
  match DSP s with
  | None =>
      (s, Throw (TypeError
            "Cannot read properties of undefined (reading 'downloadConfig')"))
  | Some _ =>
      match download with
      | Throw e => (s, Throw e)
      | Ok _ => renderPipeline linearize s
      end
  end.

(** ** Overlapping refreshes

    The page runs on one thread: a call of [refreshPipeline] runs until it
    awaits, and is resumed when the awaited request settles.  A [task] is
    a call at one of its two suspension points, or settled. *)
Inductive task : Type :=
| AwaitDownload (download : result unit) (linearize : result channels)
| AwaitLinearize (linearize : result channels)
| Settled (r : result unit).

(** The call itself: it runs up to [await DSP.downloadConfig()]. *)
Definition refreshPipeline_call (download : result unit)
           (linearize : result channels) (s : page) : task :=
  match DSP s with
  | None =>
      Settled (Throw (TypeError
        "Cannot read properties of undefined (reading 'downloadConfig')"))
  | Some _ => AwaitDownload download linearize
  end.

(** Resuming a task runs it up to its next suspension point. *)
Definition resume (t : task) (s : page) : page * task :=
  match t with
  | AwaitDownload (Throw e) _ => (s, Settled (Throw e))
  | AwaitDownload (Ok _) linearize =>
      match renderPipeline_begin s with
      | (s, Some r) => (s, Settled r)
      | (s, None) => (s, AwaitLinearize linearize)
      end
  | AwaitLinearize linearize =>
      let (s, r) := renderPipeline_resume linearize s in (s, Settled r)
  | Settled r => (s, Settled r)
  end.

Definition settled (t : task) : bool :=
  match t with
  | Settled _ => true
  | _ => false
  end.

(** Two calls in flight.  A schedule names, step by step, the call whose
    awaited request settles next ([false]: the first call, [true]: the
    second); it may only name a call that is still suspended. *)
Fixpoint run (schedule : list bool) (s : page) (first second : task)
  : option (page * task * task) :=
  match schedule with
  | [] => Some (s, first, second)
  | false :: rest =>
      if settled first then None
      else let (s, first) := resume first s in run rest s first second
  | true :: rest =>
      if settled second then None
      else let (s, second) := resume second s in run rest s first second
  end.

(** The lanes the editor shows. *)
Definition visibleLanes (s : page) : list element :=
  match editor s with
  | Some ed => elements (childNodes ed)
  | None => []
  end.

(** The lanes one render pass builds for a configuration, each with the
    animation frame it requests, from channel [channelNo] on. *)
Fixpoint buildLanes (chans : channels) (channelNo : nat)
  : result (list (element * frameRequest)) :=
  match chans with
  | [] => Ok []
  | components :: rest =>
      built <- createLane channelNo components ;;
      more <- buildLanes rest (S channelNo) ;;
      Ok (built :: more)
  end.

(** The page once the editor was emptied and the lane list reset. *)
Definition cleared (ed : element) (s : page) : page :=
  {| DSP := DSP s; lanes := [];
     editor := Some (set_innerHTML ed EmptyString); frames := frames s |}.

(** The page once built lanes were appended. *)
Definition withLanes (built : list (element * frameRequest)) (s : page) : page :=
  {| DSP := DSP s;
     lanes := (lanes s ++ map fst built)%list;
     editor := option_map (fun ed => appendChildren ed (map fst built)) (editor s);
     frames := (frames s ++ map snd built)%list |}.

(** ** Stage descriptors of the data model

    A stage is an object with a string [type]; an [input] or [output] has a
    [device] object, a [mixer] an array of [sources], and the value under
    the name of a [filter] is an object whose [parameters] are an object.
    Any other type is admitted. *)
Definition filter_name (props : list (string * value num)) : option string :=
  find_key (fun k => negb (String.eqb k "type")) (map fst props).




End Page.

(** ** Reading a rendered node or lane *)

(** The text of the node's header. *)
Definition headerText (node : element) : option string :=
  match querySelectorAll "nodeHeader" node with
  | header :: _ => textContent header
  | [] => None
  end.

(** The markup of the node's content. *)
Definition contentMarkup (node : element) : option string :=
  match querySelectorAll "nodeContent" node with
  | content :: _ => innerHTML content
  | [] => None
  end.


(** The text of the lane's label. *)
Definition laneLabel (lane : element) : option string :=
  match querySelectorAll "laneLabel" lane with
  | label :: _ => textContent label
  | [] => None
  end.


(** The element of a node whose stage has the string type [ty] and the
    content markup [html]. *)
Definition nodeElement (ty html : string) (channelNo : nat) (xPos : Z) : element :=
  Element "div" "node"
    [("data-type", ty); ("data-channel", nat_to_string channelNo)]
    [("left", px xPos); ("width", px nodeWidth); ("height", px nodeHeight)]
    ([ElementNode (Element "div" "nodeHeader" [] [] [TextNode (toUpperCase ty)]);
      ElementNode (Element "div" "nodeContent" [] []
                     (if String.eqb html EmptyString then [] else [Markup html]))]
     ++ (if String.eqb ty "input" then []
         else [ElementNode (Element "div" "connector left" [] [] [])])
     ++ (if String.eqb ty "output" then []
         else [ElementNode (Element "div" "connector right" [] [] [])]))%list.


(** The node container that holds [nodes]. *)
Definition containerElement (nodes : list element) : element :=
  appendChildren (Element "div" "nodeContainer" [] [] []) nodes.

(** The element of the lane of channel [channelNo] whose container holds
    [nodes]. *)
Definition laneElement (channelNo : nat) (nodes : list element) : element :=
  Element "div" "lane"
    [("data-channel", nat_to_string channelNo)]
    [("height", px laneHeight)]
    [ElementNode (Element "div" "laneLabel" [] []
                    [TextNode ("Channel " ++ nat_to_string channelNo)]);
     ElementNode (containerElement nodes)].

(** [drawWires] invoked once per layout of the list, on the same container
    and the same nodes. *)
Definition drawWiresRepeatedly {num : Type} `{JSNumber num}
           (layouts : list (element -> DOMRect num))
           (container : element) (nodes : list element) : element :=
  fold_left (fun c layout => drawWires layout c nodes) layouts container.

(** ** Detail lines *)

Section Details.
Context {num : Type} `{JSNumber num}.

(** The value read under [k] from an object with the given properties. *)
Definition prop (k : string) (props : list (string * value num)) : value num :=
  match lookup k props with
  | Some v => v
  | None => VUndef
  end.

(** The markup of a first detail line followed by small detail lines. *)
Definition details_markup (first : string) (rest : list string) : string :=
  detail first ++ String.concat EmptyString (map detail_small rest).


End Details.

(** ** Integer numbers

    The integer-valued numbers, with quotients, roots and angles rounded to
    an integer.  Conversions, comparisons, sums, differences and products are
    those of JavaScript on these numbers; the instance serves to evaluate the
    definitions on concrete configurations. *)
Module IntegerNumbers.

Definition atan2 (y x : Z) : Z :=
  if (y =? 0)%Z then (if (0 <=? x)%Z then 0 else 3)%Z
  else if (0 <? y)%Z then 1%Z else (-1)%Z.

#[export] Instance Z_JSNumber : JSNumber Z := {
  num_of_nat := Z.of_nat;
  num_to_string := Z_to_string;
  num_to_boolean := fun z => negb (z =? 0)%Z;
  num_strict_eq := Z.eqb;
  num_add := Z.add;
  num_sub := Z.sub;
  num_mul := Z.mul;
  num_div := Z.div;
  num_sqrt := Z.sqrt;
  num_atan2 := atan2;
  num_PI := 3%Z
}.


Definition stage_input : value Z :=
  VObj [("type", VStr "input");
        ("device", VObj [("device", VStr "hw:0"); ("format", VStr "S32LE")])].
Definition stage_low_shelf : value Z :=
  VObj [("type", VStr "filter");
        ("Low Shelf",
         VObj [("type", VStr "Biquad");
               ("parameters",
                VObj [("type", VStr "Lowshelf"); ("freq", VNum 100%Z); ("gain", VNum 3%Z)])])].
Definition stage_output : value Z :=
  VObj [("type", VStr "output");
        ("device", VObj [("device", VStr "hw:1"); ("format", VStr "S32LE")])].

Definition channel0 : list (value Z) := [stage_input; stage_low_shelf; stage_output].




(** A filter stage whose object has no key besides [type]. *)
Definition unnamed_filter : value Z := VObj [("type", VStr "filter")].

(** The node of the input stage, first of channel 0. *)
Definition input_node : element :=
  match createNode stage_input 0 10 with
  | Ok node => node
  | Throw _ => createElement "div"
  end.

(** The lane of channel 0 and the animation frame it requests. *)
Definition built0 : element * frameRequest :=
  match createLane 0 channel0 with
  | Ok built => built
  | Throw _ => (createElement "div", FrameRequest [])
  end.
Definition lane0 : element := fst built0.

(** A page with an empty editor and a connected collaborator. *)
Definition empty_page : page :=
  {| DSP := Some {| connected := true |}; lanes := [];
     editor := Some (createElement "div"); frames := [] |}.

(** The page after the one-channel configuration was rendered. *)
Definition rendered_page : page :=
  fst (renderPipeline (Ok [channel0]) empty_page).



End IntegerNumbers.

(** ** Further notions for the properties of the page *)

(** The markup [showError] assigns to the editor for a message. *)
Definition errorPanel (msg : string) : string :=
  br 12 ++ "<div class=" ++ quote ++ "error" ++ quote ++ ">" ++
  br 16 ++ "<h3>Error</h3>" ++
  br 16 ++ "<p>" ++ msg ++ "</p>" ++
  br 12 ++ "</div>" ++
  br 8.

(** The two messages of [roomOnLoad]. *)
Definition notConnectedMessage : string :=
  "Not connected to DSP. Please connect from the Connections page.".

Definition loadErrorMessage (error : exn) : string :=
  "Error loading DSP configuration: " ++ message error.

(** [undefined] and [null]: the values a property cannot be read from. *)
Definition nullish {num : Type} (v : value num) : bool :=
  match v with
  | VUndef | VNull => true
  | _ => false
  end.

(** What a filter stage shows, given the value under its name. *)
Definition filterDetails {num : Type} `{JSNumber num}
           (filterName : string) (filter : value num) : result string :=
  params <- Get filter "parameters" ;;
  ftype <- Get filter "type" ;;
  if is_string ftype "Biquad" then
    ptype <- Get params "type" ;;
    freq <- Get params "freq" ;;
    gain <- Get params "gain" ;;
    Ok (details_markup filterName
          ([ToString ptype] ++
           (if ToBoolean freq then [(ToString freq ++ " Hz")%string] else []) ++
           (if is_defined gain then [(ToString gain ++ " dB")%string] else []))%list)
  else if is_string ftype "Gain" then
    gain <- Get params "gain" ;;
    Ok (br 20 ++ detail filterName ++
        br 20 ++ detail_small ("Gain: " ++ ToString gain ++ " dB") ++ br 16)
  else if is_string ftype "Conv" then
    Ok (br 20 ++ detail filterName ++ br 20 ++ detail_small "Convolution" ++ br 16)
  else
    Ok (br 20 ++ detail filterName ++ br 20 ++ detail_small (ToString ftype) ++ br 16).

(** The markup of the editor, when it holds markup or nothing. *)
Definition innerHTML_of_editor (s : page) : option string :=
  match editor s with
  | Some ed => innerHTML ed
  | None => None
  end.

(** The lane list and the editor agree: the editor exists and its element
    children are the lanes of the list. *)
Definition lanes_in_editor (s : page) : Prop :=
  exists ed, editor s = Some ed /\ lanes s = elements (childNodes ed).

(** Stages and pages on which the further properties are evaluated. *)
Module Scenarios.
Import IntegerNumbers.

(** An input stage that lacks its device. *)
Definition input_without_device : value Z := VObj [("type", VStr "input")].

(** A stage object without a type. *)
Definition untyped_stage : value Z :=
  VObj [("device", VObj [("device", VStr "hw:0"); ("format", VStr "S32LE")])].


Definition mixer_stage (sources : list (value Z)) : value Z :=
  VObj [("type", VStr "mixer"); ("sources", VArr sources)].

(** A filter stage named [Room] with the given specification. *)
Definition room_filter (spec : list (string * value Z)) : value Z :=
  VObj [("type", VStr "filter"); ("Room", VObj spec)].

(** The same stage with a second named key after the first. *)
Definition room_filter_two_keys (spec : list (string * value Z)) : value Z :=
  VObj [("type", VStr "filter"); ("Room", VObj spec);
        ("Other", VObj [("type", VStr "Conv")])].

Definition gain_spec : list (string * value Z) :=
  [("type", VStr "Gain"); ("parameters", VObj [("gain", VNum (-3)%Z)])].
Definition biquad_spec_without_parameters : list (string * value Z) :=
  [("type", VStr "Biquad")].

(** The error of reading [device] from a missing device. *)
Definition device_error : exn :=
  TypeError "Cannot read properties of undefined (reading 'device')".

(** A configuration whose second channel cannot be rendered. *)
Definition broken_channels : list (list (value Z)) :=
  [channel0; [stage_input; input_without_device]; channel0].

(** Two refreshes in flight on the empty page: the download of the first
    fails, the second meets the broken configuration. *)
Definition mixed_refreshes : option (page * task * task) :=
  run [false; true; true] empty_page
      (AwaitDownload (Throw device_error) (Ok [channel0]))
      (AwaitDownload (Ok tt) (Ok broken_channels)).

Definition mixed_page : page :=
  match mixed_refreshes with
  | Some (s, _, _) => s
  | None => empty_page
  end.

(** A page of a document that has no editor element. *)
Definition page_without_editor : page :=
  {| DSP := Some {| connected := true |}; lanes := []; editor := None; frames := [] |}.

(** A refresh whose linearization fails, resumed after the refresh beside it
    has built its lane. *)
Definition late_failure : option (page * task * task) :=
  run [true; true; false; false] rendered_page
      (refreshPipeline_call (Ok tt) (Throw device_error) rendered_page)
      (refreshPipeline_call (Ok tt) (Ok [channel0]) rendered_page).

Definition late_failure_page : page :=
  match late_failure with
  | Some (s, _, _) => s
  | None => rendered_page
  end.

End Scenarios.

(** * Properties *)

(** ** The document tree *)

Lemma querySelectorAll_eq (c : string) (e : element) :
  querySelectorAll c e = walk_query c (childNodes e).
Proof. destruct e; reflexivity. Qed.

Lemma remove_all_eq (c : string) (e : element) :
  remove_all c e =
  Element (tagName e) (className e) (attributes e) (style e)
          (walk_remove c (childNodes e)).
Proof. destruct e; reflexivity. Qed.


Lemma walk_query_app (c : string) (l1 l2 : list node) :
  walk_query c (l1 ++ l2) = (walk_query c l1 ++ walk_query c l2)%list.
Proof.
  induction l1 as [|n l1 IH]; [reflexivity|].
  destruct n as [x| |]; simpl; rewrite ?IH, <- ?app_assoc; reflexivity.
Qed.

Lemma element_depth_ind (P : element -> Prop) :
  (forall e, (forall x, In (ElementNode x) (childNodes e) -> P x) -> P e) ->
  forall e, P e.
Proof.
  intros step e.
  assert (bounded : forall n e', depth e' <= n -> P e').
  { induction n as [|n IHn]; intros e' Hd.
    - destruct e'; simpl in Hd; lia.
    - apply step. intros x Hin. apply IHn.
      destruct e' as [t k a s cs]. simpl in Hin, Hd.
      apply le_S_n in Hd. revert Hd.
      induction cs as [|m cs IHcs]; [contradiction|].
      destruct Hin as [->|Hin].
      + intros Hd. lia.
      + destruct m; intros Hd; apply IHcs; auto; lia. }
  apply (bounded (depth e)). lia.
Qed.

(** After the removal no element of the class is left. *)
Lemma querySelectorAll_remove_all (c : string) (e : element) :
  querySelectorAll c (remove_all c e) = [].
Proof.
  induction e as [e IH] using element_depth_ind.
  rewrite remove_all_eq, querySelectorAll_eq. simpl.
  induction (childNodes e) as [|n cs IHcs]; [reflexivity|].
  destruct n as [x| |]; simpl.
  - destruct (has_class c x) eqn:Hx.
    + apply IHcs. intros y Hy. apply IH. right. exact Hy.
    + simpl.
      assert (Hk : has_class c (remove_all c x) = false).
      { rewrite remove_all_eq. unfold has_class in *. simpl. exact Hx. }
      rewrite Hk, IH by (left; reflexivity). simpl.
      apply IHcs. intros y Hy. apply IH. right. exact Hy.
  - apply IHcs. intros y Hy. apply IH. right. exact Hy.
  - apply IHcs. intros y Hy. apply IH. right. exact Hy.
Qed.

Lemma childNodes_appendChild (p x : element) :
  childNodes (appendChild p x) = (childNodes p ++ [ElementNode x])%list.
Proof. destruct p; reflexivity. Qed.

Lemma querySelectorAll_appendChild (c : string) (p x : element) :
  querySelectorAll c (appendChild p x) =
  (querySelectorAll c p ++
   (if has_class c x then [x] else []) ++ querySelectorAll c x)%list.
Proof.
  rewrite (querySelectorAll_eq c (appendChild p x)), childNodes_appendChild.
  rewrite walk_query_app, <- (querySelectorAll_eq c p).
  simpl. rewrite app_nil_r. reflexivity.
Qed.

Lemma childNodes_appendChildren (l : list element) (p : element) :
  childNodes (appendChildren p l) = (childNodes p ++ map ElementNode l)%list.
Proof.
  unfold appendChildren. revert p.
  induction l as [|x l IH]; intros p; simpl.
  - rewrite app_nil_r. reflexivity.
  - rewrite IH, childNodes_appendChild, <- app_assoc. reflexivity.
Qed.

Lemma elements_app (l1 l2 : list node) :
  elements (l1 ++ l2) = (elements l1 ++ elements l2)%list.
Proof.
  induction l1 as [|n l1 IH]; [reflexivity|].
  destruct n; simpl; rewrite ?IH; reflexivity.
Qed.

Lemma elements_map (l : list element) : elements (map ElementNode l) = l.
Proof. induction l as [|x l IH]; simpl; [|rewrite IH]; reflexivity. Qed.

Lemma remove_all_idempotent (c : string) (e : element) :
  remove_all c (remove_all c e) = remove_all c e.
Proof.
  induction e as [e IH] using element_depth_ind.
  rewrite (remove_all_eq c e), remove_all_eq. simpl. f_equal.
  induction (childNodes e) as [|n cs IHcs]; [reflexivity|].
  assert (IHtail : forall x, In (ElementNode x) cs ->
                             remove_all c (remove_all c x) = remove_all c x)
    by (intros x Hx; apply IH; right; exact Hx).
  destruct n as [x| |]; simpl.
  - destruct (has_class c x) eqn:Hx; [apply IHcs, IHtail|].
    simpl.
    assert (Hk : has_class c (remove_all c x) = false).
    { rewrite remove_all_eq. unfold has_class in *. simpl. exact Hx. }
    rewrite Hk, IH by (left; reflexivity). f_equal. apply IHcs, IHtail.
  - f_equal. apply IHcs, IHtail.
  - f_equal. apply IHcs, IHtail.
Qed.

Lemma walk_remove_app (c : string) (l1 l2 : list node) :
  walk_remove c (l1 ++ l2) = (walk_remove c l1 ++ walk_remove c l2)%list.
Proof.
  induction l1 as [|n l1 IH]; [reflexivity|].
  destruct n as [x| |]; simpl; rewrite ?IH; try reflexivity.
  destruct (has_class c x); reflexivity.
Qed.

Lemma remove_all_appendChild (c : string) (p x : element) :
  has_class c x = true ->
  remove_all c (appendChild p x) = remove_all c p.
Proof.
  intros Hx. rewrite (remove_all_eq c p), remove_all_eq.
  rewrite childNodes_appendChild, walk_remove_app. simpl. rewrite Hx, app_nil_r.
  destruct p; reflexivity.
Qed.

(** Removal takes away appended children of the class. *)
Lemma remove_all_appendChildren (c : string) (l : list element) :
  Forall (fun x => has_class c x = true) l ->
  forall p, remove_all c (appendChildren p l) = remove_all c p.
Proof.
  unfold appendChildren.
  induction 1 as [|x l Hx _ IH]; intros p; [reflexivity|].
  simpl. rewrite IH. apply remove_all_appendChild, Hx.
Qed.

(** ** Wires *)

Section Wires.
Context {num : Type} `{JSNumber num}.
Variable layout : element -> DOMRect num.

Lemma createWire_className (p a b : element) :
  className (createWire layout p a b) = "wire".
Proof. reflexivity. Qed.

Lemma createWire_childNodes (p a b : element) :
  childNodes (createWire layout p a b) = [].
Proof. reflexivity. Qed.

Lemma createWire_has_class (p a b : element) :
  has_class "wire" (createWire layout p a b) = true.
Proof. reflexivity. Qed.

Lemma createWire_no_descendant (c : string) (p a b : element) :
  querySelectorAll c (createWire layout p a b) = [].
Proof. rewrite querySelectorAll_eq, createWire_childNodes. reflexivity. Qed.

Lemma is_wire_has_class (w : element) : is_wire layout w -> has_class "wire" w = true.
Proof. intros (p & a & b & ->). apply createWire_has_class. Qed.

(** The loop appends one wire per consecutive pair: wire [i] joins node [i]
    to node [i + 1], and its parent is the container with the wires before
    it. *)
Lemma appendWires_spec (nodes : list element) :
  forall container,
  exists wires,
    appendWires layout container nodes = appendChildren container wires /\
    List.length wires = List.length nodes - 1 /\
    Forall (is_wire layout) wires /\
    forall i a b,
      nth_error nodes i = Some a -> nth_error nodes (S i) = Some b ->
      nth_error wires i =
      Some (createWire layout (appendChildren container (firstn i wires)) a b).
Proof.
  induction nodes as [|a nodes IH]; intros container.
  - exists []. split; [reflexivity|]. split; [reflexivity|]. split; [constructor|].
    intros i x y Hi. destruct i; discriminate Hi.
  - destruct nodes as [|b rest].
    + exists []. split; [reflexivity|]. split; [reflexivity|]. split; [constructor|].
      intros i x y _ Hi. destruct i as [|[|i]]; discriminate Hi.
    + destruct (IH (appendChild container (createWire layout container a b)))
        as (wires & Heq & Hlen & Hall & Hnth).
      exists (createWire layout container a b :: wires).
      split; [|split; [|split]].
      * exact Heq.
      * simpl in *. lia.
      * constructor; [exists container, a, b; reflexivity | exact Hall].
      * intros [|i] x y Hx Hy.
        -- simpl in Hx, Hy. injection Hx as <-. injection Hy as <-. reflexivity.
        -- simpl. apply (Hnth i x y); assumption.
Qed.

(** The wire-class descendants of a container to which wires were appended. *)
Lemma querySelectorAll_append_wires (wires : list element) :
  Forall (is_wire layout) wires ->
  forall container,
    querySelectorAll "wire" (appendChildren container wires) =
    (querySelectorAll "wire" container ++ wires)%list.
Proof.
  induction 1 as [|w wires Hw _ IH]; intros container; simpl.
  - rewrite app_nil_r. reflexivity.
  - unfold appendChildren in *. simpl. rewrite IH, querySelectorAll_appendChild.
    rewrite (is_wire_has_class Hw).
    destruct Hw as (p & a & b & ->). rewrite createWire_no_descendant.
    rewrite <- app_assoc. reflexivity.
Qed.

(** What [drawWires] leaves in the container: its children without the
    former wires, followed by the new wires, which are all its wires. *)
Lemma drawWires_spec (container : element) (nodes : list element) :
  exists wires,
    drawWires layout container nodes =
      appendChildren (remove_all "wire" container) wires /\
    querySelectorAll "wire" (drawWires layout container nodes) = wires /\
    List.length wires = List.length nodes - 1 /\
    Forall (is_wire layout) wires /\
    forall i a b,
      nth_error nodes i = Some a -> nth_error nodes (S i) = Some b ->
      nth_error wires i =
      Some (createWire layout
              (appendChildren (remove_all "wire" container) (firstn i wires)) a b).
Proof.
  unfold drawWires.
  destruct (appendWires_spec nodes (remove_all "wire" container))
    as (wires & Heq & Hlen & Hall & Hnth).
  exists wires. rewrite Heq. repeat split; auto.
  rewrite (querySelectorAll_append_wires Hall), querySelectorAll_remove_all.
  reflexivity.
Qed.

(** Drawing again over a drawn container changes nothing. *)
Lemma drawWires_again (container : element) (nodes : list element) :
  drawWires layout (drawWires layout container nodes) nodes =
  drawWires layout container nodes.
Proof.
  destruct (drawWires_spec container nodes) as (wires & Heq & _ & _ & Hall & _).
  unfold drawWires at 1. rewrite Heq at 1.
  rewrite remove_all_appendChildren, remove_all_idempotent.
  - reflexivity.
  - eapply Forall_impl; [|exact Hall]. intros w. apply is_wire_has_class.
Qed.

End Wires.

(** C10. Wire drawing does not accumulate wires: however often [drawWires]
    is invoked (at least once, each time under the layout of that moment) on
    the same container with the same list of [N] nodes, the container ends
    with exactly [max (N - 1) 0] wires.  The container may hold anything
    before the first invocation, wires included. *)
Theorem drawWires_repeated_count :
  forall (num : Type) (JS : JSNumber num)
         (first : element -> DOMRect num) (later : list (element -> DOMRect num))
         (container : element) (nodes : list element),
    Z.of_nat (List.length (querySelectorAll "wire"
                (drawWiresRepeatedly (first :: later) container nodes))) =
    Z.max (Z.of_nat (List.length nodes) - 1) 0.
Proof.
  intros num JS first later container nodes.
  unfold drawWiresRepeatedly. simpl.
  assert (Hcount : forall layouts c layout,
             Z.of_nat (List.length (querySelectorAll "wire"
               (fold_left (fun c l => drawWires l c nodes) layouts
                          (drawWires layout c nodes)))) =
             Z.max (Z.of_nat (List.length nodes) - 1) 0).
  { induction layouts as [|l layouts IH]; intros c layout; simpl.
    - destruct (drawWires_spec layout c nodes) as (wires & _ & -> & Hlen & _).
      rewrite Hlen. lia.
    - apply IH. }
  apply Hcount.
Qed.

(** ** Nodes *)

Section Nodes.
Context {num : Type} `{JSNumber num}.


Lemma createNode_of_parts (component : value num) (channelNo : nat) (xPos : Z)
      (ty html : string) :
  Get component "type" = Ok (VStr ty) ->
  formatNodeContent component = Ok html ->
  createNode component channelNo xPos = Ok (nodeElement ty html channelNo xPos).
Proof.
  intros Hty Hhtml. unfold createNode. rewrite Hty. simpl. rewrite Hhtml. simpl.
  unfold nodeElement.
  destruct (String.eqb ty "input"), (String.eqb ty "output"); reflexivity.
Qed.



Lemma nodeElement_headerText (ty html : string) (channelNo : nat) (xPos : Z) :
  headerText (nodeElement ty html channelNo xPos) = Some (toUpperCase ty).
Proof. reflexivity. Qed.

Lemma nodeElement_contentMarkup (ty html : string) (channelNo : nat) (xPos : Z) :
  contentMarkup (nodeElement ty html channelNo xPos) = Some html.
Proof.
  unfold nodeElement, contentMarkup.
  destruct (String.eqb html EmptyString) eqn:Hh; simpl.
  - apply String.eqb_eq in Hh. subst html. reflexivity.
  - reflexivity.
Qed.




End Nodes.

(** ** Formatting *)

Lemma append_assoc (a b c : string) : (a ++ b) ++ c = a ++ b ++ c.
Proof. induction a as [|x a IH]; simpl; [|rewrite IH]; reflexivity. Qed.

Lemma append_empty_r (a : string) : a ++ EmptyString = a.
Proof. induction a as [|x a IH]; simpl; [|rewrite IH]; reflexivity. Qed.

Lemma bind_Ok (A B : Type) (a : A) (k : A -> result B) : bind (Ok a) k = k a.
Proof. reflexivity. Qed.

Lemma find_key_only_type (keys : list string) :
  (forall k, In k keys -> k = "type") ->
  find_key (fun k => negb (String.eqb k "type")) keys = None.
Proof.
  induction keys as [|k keys IH]; intros Hall; [reflexivity|].
  simpl. rewrite (Hall k (or_introl eq_refl)). simpl.
  apply IH. intros k' Hk'. apply Hall. right. exact Hk'.
Qed.

Section Formatting.
Context {num : Type} `{JSNumber num}.

Lemma Get_object (props : list (string * value num)) (k : string) :
  Get (VObj props) k = Ok (prop k props).
Proof. unfold prop. simpl. destruct (lookup k props); reflexivity. Qed.

Lemma formatNodeContent_filter (props : list (string * value num)) :
  lookup "type" props = Some (VStr "filter") ->
  formatNodeContent (VObj props) = formatFilter (VObj props).
Proof.
  intros Hty. unfold formatNodeContent. simpl Get. rewrite Hty. reflexivity.
Qed.

(** C6, as the code has it. A filter stage whose object has no key besides
    [type] is formatted without an error: its content is the single detail
    [Unknown], and the node built for it carries the header [FILTER], the
    upper-cased type. *)
Theorem unnamed_filter_unknown (props : list (string * value num)) :
  lookup "type" props = Some (VStr "filter") ->
  (forall k, In k (map fst props) -> k = "type") ->
  formatNodeContent (VObj props) = Ok (detail "Unknown") /\
  forall channelNo xPos,
  exists node,
    createNode (VObj props) channelNo xPos = Ok node /\
    headerText node = Some "FILTER" /\
    contentMarkup node = Some (detail "Unknown").
Proof.
  intros Hty Hkeys.
  assert (Hfmt : formatNodeContent (VObj props) = Ok (detail "Unknown")).
  { rewrite (formatNodeContent_filter _ Hty). unfold formatFilter. simpl.
    rewrite (find_key_only_type _ Hkeys). reflexivity. }
  split; [exact Hfmt|].
  intros channelNo xPos.
  exists (nodeElement "filter" (detail "Unknown") channelNo xPos).
  split; [|split].
  - apply createNode_of_parts; [|exact Hfmt]. simpl. rewrite Hty. reflexivity.
  - reflexivity.
  - apply nodeElement_contentMarkup.
Qed.


End Formatting.

(** ** Offsets *)






(** ** Lanes *)


Section Lanes.
Context {num : Type} `{JSNumber num}.




(** The lane that [createLane] returns. *)
Lemma createLane_inv (channelNo : nat) (components : list (value num))
      (lane : element) (request : frameRequest) :
  createLane channelNo components = Ok (lane, request) ->
  exists nodes,
    createNodes components channelNo 10 = Ok nodes /\
    request = FrameRequest nodes /\
    lane = laneElement channelNo nodes.
Proof.
  unfold createLane. intros Hlane.
  destruct (createNodes components channelNo 10) as [nodes|e]; [|discriminate Hlane].
  simpl in Hlane. injection Hlane as <- <-.
  exists nodes. repeat split.
Qed.


Lemma laneElement_label (channelNo : nat) (nodes : list element) :
  laneLabel (laneElement channelNo nodes) =
  Some ("Channel " ++ nat_to_string channelNo).
Proof. reflexivity. Qed.

End Lanes.





Section LaneWires.
Context {num : Type} `{JSNumber num}.
Variable layout : element -> DOMRect num.






End LaneWires.

Section LaneOffsets.
Context {num : Type} `{JSNumber num}.



End LaneOffsets.

(** ** Well-formed stages are rendered *)

Section Totality.
Context {num : Type} `{JSNumber num}.








(** What a completed pass has built: one lane per channel, lane [i] being
    the lane of channel [channelNo + i]. *)
Lemma buildLanes_spec (chans : channels) :
  forall channelNo built,
    buildLanes chans channelNo = Ok built ->
    List.length built = List.length chans /\
    forall i lane,
      nth_error (map fst built) i = Some lane ->
      exists nodes, lane = laneElement (channelNo + i) nodes.
Proof.
  induction chans as [|components rest IH]; intros channelNo built Hbuilt.
  - injection Hbuilt as <-. split; [reflexivity|].
    intros i lane Hi. destruct i; discriminate Hi.
  - cbn [buildLanes] in Hbuilt.
    destruct (createLane channelNo components) as [[lane0 request]|e] eqn:Hlane;
      [|discriminate Hbuilt].
    cbn [bind] in Hbuilt.
    destruct (buildLanes rest (S channelNo)) as [more|e] eqn:Hmore;
      [|discriminate Hbuilt].
    cbn [bind] in Hbuilt. injection Hbuilt as <-.
    destruct (IH _ _ Hmore) as [Hlen Hnth].
    split; [simpl; rewrite Hlen; reflexivity|].
    intros [|i] lane Hi; cbn [map fst nth_error] in Hi.
    + injection Hi as <-.
      destruct (createLane_inv _ _ Hlane) as (nodes & _ & _ & ->).
      exists nodes. rewrite Nat.add_0_r. reflexivity.
    + destruct (Hnth i lane Hi) as [nodes ->].
      exists nodes. f_equal. lia.
Qed.

End Totality.

(** ** Render and refresh *)

Section PageProps.
Context {num : Type} `{JSNumber num}.

Lemma appendLanes_spec (chans : channels) :
  forall channelNo built (s : page),
    buildLanes chans channelNo = Ok built ->
    appendLanes chans channelNo s = (withLanes built s, Ok tt).
Proof.
  induction chans as [|components rest IH]; intros channelNo built s Hbuilt.
  - injection Hbuilt as <-. unfold withLanes. cbn [appendLanes map].
    rewrite !app_nil_r. destruct s as [d l [ed|] f]; reflexivity.
  - cbn [buildLanes] in Hbuilt. cbn [appendLanes].
    destruct (createLane channelNo components) as [[lane request]|e];
      [|discriminate Hbuilt].
    cbn [bind] in Hbuilt.
    destruct (buildLanes rest (S channelNo)) as [more|e] eqn:Hmore;
      [|discriminate Hbuilt].
    cbn [bind] in Hbuilt. injection Hbuilt as <-.
    rewrite (IH _ _ _ Hmore). unfold withLanes. cbn [DSP lanes editor frames map fst snd].
    rewrite <- !app_assoc. destruct (editor s); reflexivity.
Qed.

Lemma visibleLanes_cleared (ed : element) (s : page) :
  visibleLanes (cleared ed s) = [].
Proof. unfold visibleLanes, cleared. destruct ed; reflexivity. Qed.

Lemma visibleLanes_withLanes (built : list (element * frameRequest))
      (s : page) (ed : element) :
  editor s = Some ed ->
  visibleLanes (withLanes built s) = (visibleLanes s ++ map fst built)%list.
Proof.
  intros Hed. unfold visibleLanes, withLanes. cbn [editor]. rewrite Hed.
  cbn [option_map]. rewrite childNodes_appendChildren, elements_app, elements_map.
  reflexivity.
Qed.

Lemma renderPipeline_begin_ok (s : page) (ed : element) (d : dsp) :
  editor s = Some ed -> DSP s = Some d ->
  renderPipeline_begin s = (cleared ed s, None).
Proof.
  intros Hed Hdsp. unfold renderPipeline_begin, cleared. rewrite Hed. cbn [DSP].
  destruct (DSP s); [reflexivity|discriminate Hdsp].
Qed.



(** A pass that completes has built a lane for every channel, well formed
    or not. *)
Lemma appendLanes_completed (chans : channels) :
  forall channelNo (s s' : page),
    appendLanes chans channelNo s = (s', Ok tt) ->
    exists built, buildLanes chans channelNo = Ok built /\ s' = withLanes built s.
Proof.
  induction chans as [|components rest IH]; intros channelNo s s' Hpass.
  - exists []. split; [reflexivity|].
    rewrite (@appendLanes_spec [] channelNo [] s eq_refl) in Hpass.
    injection Hpass as <-. reflexivity.
  - cbn [appendLanes] in Hpass. cbn [buildLanes].
    destruct (createLane channelNo components) as [[lane request]|e] eqn:Hlane;
      [|discriminate Hpass].
    destruct (IH _ _ _ Hpass) as (more & Hmore & ->).
    exists ((lane, request) :: more). rewrite Hmore. split; [reflexivity|].
    unfold withLanes. cbn [DSP lanes editor frames map fst snd].
    rewrite <- !app_assoc. destruct (editor s); reflexivity.
Qed.

Lemma renderPipeline_completed (s s' : page) (ed : element) (chans : channels) :
  editor s = Some ed ->
  renderPipeline (Ok chans) s = (s', Ok tt) ->
  lanes s' = visibleLanes s' /\
  List.length (visibleLanes s') = List.length chans.
Proof.
  intros Hed Hpass. unfold renderPipeline, renderPipeline_begin in Hpass.
  rewrite Hed in Hpass. cbn [DSP] in Hpass.
  destruct (DSP s) as [d|] eqn:Hdsp; [|discriminate Hpass].
  cbn [renderPipeline_resume] in Hpass.
  destruct (appendLanes_completed _ _ _ Hpass) as (built & Hbuilt & ->).
  destruct (buildLanes_spec _ _ Hbuilt) as [Hlen _].
  erewrite visibleLanes_withLanes by reflexivity.
  unfold visibleLanes at 1 2. cbn [editor childNodes lanes app].
  replace (elements (childNodes (set_innerHTML ed EmptyString))) with (@nil element)
    by (destruct ed; reflexivity).
  cbn [app]. split; [reflexivity|]. rewrite length_map. exact Hlen.
Qed.

(** A refresh whose download fails leaves the page as it was and rejects:
    nothing is shown and nothing is cleared. *)
Lemma refreshPipeline_download_fails (s : page) (d : dsp) (e : exn)
      (linearize : result channels) :
  DSP s = Some d ->
  refreshPipeline (Throw e) linearize s = (s, Throw e).
Proof. intros Hdsp. unfold refreshPipeline. rewrite Hdsp. reflexivity. Qed.

(** A refresh whose linearization fails has emptied the editor and the lane
    list, and rejects without showing the error. *)
Lemma refreshPipeline_linearize_fails (s : page) (ed : element) (d : dsp) (e : exn) :
  editor s = Some ed -> DSP s = Some d ->
  refreshPipeline (Ok tt) (Throw e) s = (cleared ed s, Throw e).
Proof.
  intros Hed Hdsp. unfold refreshPipeline, renderPipeline.
  rewrite Hdsp, (renderPipeline_begin_ok _ Hed Hdsp). reflexivity.
Qed.

(** The initial load catches both failures and shows the error's message. *)
Lemma roomOnLoad_download_fails (s : page) (d : dsp) (e : exn)
      (linearize : result channels) :
  connected d = true ->
  roomOnLoad (Some d) (Throw e) linearize s =
  showError ("Error loading DSP configuration: " ++ message e)
    {| DSP := Some d; lanes := lanes s; editor := editor s; frames := frames s |}.
Proof. intros Hc. unfold roomOnLoad. rewrite Hc. reflexivity. Qed.

Lemma roomOnLoad_linearize_fails (s : page) (ed : element) (d : dsp) (e : exn) :
  connected d = true -> editor s = Some ed ->
  roomOnLoad (Some d) (Ok tt) (Throw e) s =
  showError ("Error loading DSP configuration: " ++ message e)
    (cleared ed {| DSP := Some d; lanes := lanes s;
                   editor := editor s; frames := frames s |}).
Proof.
  intros Hc Hed. unfold roomOnLoad, renderPipeline.
  rewrite Hc. cbn [negb].
  rewrite (@renderPipeline_begin_ok _ ed d) by (first [exact Hed | reflexivity]).
  reflexivity.
Qed.

End PageProps.

(** ** Two refreshes in flight *)

Section Overlap.
Context {num : Type} `{JSNumber num}.

Lemma editor_cleared (ed : element) (s : page) :
  editor (cleared ed s) = Some (set_innerHTML ed EmptyString).
Proof. reflexivity. Qed.

Lemma editor_withLanes (built : list (element * frameRequest)) (s : page)
      (ed : element) :
  editor s = Some ed ->
  editor (withLanes built s) = Some (appendChildren ed (map fst built)).
Proof. intros Hed. unfold withLanes. cbn [editor]. rewrite Hed. reflexivity. Qed.

Lemma DSP_cleared (ed : element) (s : page) (d : dsp) :
  DSP s = Some d -> DSP (cleared ed s) = Some d.
Proof. intros Hd. exact Hd. Qed.

Lemma DSP_withLanes (built : list (element * frameRequest)) (s : page) (d : dsp) :
  DSP s = Some d -> DSP (withLanes built s) = Some d.
Proof. intros Hd. exact Hd. Qed.

Lemma lanes_cleared (ed : element) (s : page) : lanes (cleared ed s) = [].
Proof. reflexivity. Qed.

Lemma lanes_withLanes (built : list (element * frameRequest)) (s : page) :
  lanes (withLanes built s) = (lanes s ++ map fst built)%list.
Proof. reflexivity. Qed.

(** Resumed after the download, a call empties the editor and the lane
    list and awaits the linearization. *)
Lemma resume_download (s : page) (ed : element) (d : dsp)
      (linearize : result channels) :
  editor s = Some ed -> DSP s = Some d ->
  resume (AwaitDownload (Ok tt) linearize) s =
  (cleared ed s, AwaitLinearize linearize).
Proof.
  intros Hed Hdsp. cbn [resume].
  rewrite (renderPipeline_begin_ok _ Hed Hdsp). reflexivity.
Qed.

(** Resumed after the linearization, a call appends its lanes to whatever
    the editor holds at that moment. *)
Lemma resume_linearize (s : page) (chans : channels)
      (built : list (element * frameRequest)) :
  buildLanes chans 0 = Ok built ->
  resume (AwaitLinearize (Ok chans)) s = (withLanes built s, Settled (Ok tt)).
Proof.
  intros Hbuilt. cbn [resume renderPipeline_resume].
  rewrite (appendLanes_spec _ _ s Hbuilt). reflexivity.
Qed.

End Overlap.

Create HintDb page.
#[local] Hint Resolve editor_cleared editor_withLanes DSP_cleared DSP_withLanes : page.


Ltac visible_lanes :=
  repeat first
    [ rewrite visibleLanes_cleared
    | erewrite visibleLanes_withLanes by eauto with page
    | rewrite lanes_withLanes
    | rewrite lanes_cleared ];
  cbn [app].

Section OverlapOutcome.
Context {num : Type} `{JSNumber num}.


End OverlapOutcome.

(** ** Formatting and nodes on concrete stages *)

Import IntegerNumbers.



(** The filter stage [{type: "filter"}]: its content is [Unknown] and its
    node is headed [FILTER]. *)
Lemma unnamed_filter_unknown_example :
  formatNodeContent unnamed_filter = Ok (detail "Unknown") /\
  exists node,
    createNode unnamed_filter 0 10 = Ok node /\
    headerText node = Some "FILTER" /\
    contentMarkup node = Some (detail "Unknown").
Proof.
  destruct (@unnamed_filter_unknown Z Z_JSNumber [("type", VStr "filter")] eq_refl)
    as [Hformat Hnode].
  - intros k [<-|[]]. reflexivity.
  - split; [exact Hformat | exact (Hnode 0%nat 10%Z)].
Defined.

(** C6, as stated, fails on the header: the node of a filter stage without a
    named key is headed [FILTER], not [Unknown]. *)
Lemma unnamed_filter_header_not_Unknown :
  exists node,
    createNode unnamed_filter 0 10 = Ok node /\
    headerText node = Some "FILTER" /\
    headerText node <> Some "Unknown".
Proof.
  exists (nodeElement "filter" (detail "Unknown") 0 10).
  split; [reflexivity|]. split; [reflexivity|].
  intros E. discriminate E.
Qed.


(** ** Lanes, rendering and refreshing on a concrete configuration *)




(** C4 fails on the code. The one-channel configuration is on screen and a
    refresh is requested whose download is rejected: [refreshPipeline]
    rejects with the error and leaves the page as it was.  The lane of the
    earlier render stays in the editor and in the lane list, and no error is
    shown.  The initial load, on the same failure, replaces the lanes in the
    editor by the error's message (and keeps the lane list). *)
Theorem refresh_failure_not_shown :
  let failure := Error "connection lost" in
  refreshPipeline (Throw failure) (Ok [channel0]) rendered_page =
    (rendered_page, Throw failure) /\
  lanes rendered_page = [lane0] /\
  visibleLanes rendered_page = [lane0] /\
  editor (roomOnLoad (Some {| connected := true |}) (Throw failure)
                     (Ok [channel0]) rendered_page) =
    editor (showError "Error loading DSP configuration: connection lost"
                      rendered_page) /\
  visibleLanes (roomOnLoad (Some {| connected := true |}) (Throw failure)
                           (Ok [channel0]) rendered_page) = [] /\
  lanes (roomOnLoad (Some {| connected := true |}) (Throw failure)
                    (Ok [channel0]) rendered_page) = [lane0].
Proof. repeat split. Qed.



(** * Further properties *)

Unset Implicit Arguments.

(** ** Stages that cannot be formatted, and stages that degrade *)

Section StageErrors.
Context {num : Type} `{JSNumber num}.

Lemma Get_nullish (v : value num) (k : string) :
  nullish v = true -> exists e, Get v k = Throw e.
Proof. destruct v; try discriminate; intros _; eexists; reflexivity. Qed.


Lemma createNode_throws (component : value num) (channelNo : nat) (xPos : Z)
      (ty : string) (e : exn) :
  Get component "type" = Ok (VStr ty) ->
  formatNodeContent component = Throw e ->
  createNode component channelNo xPos = Throw e.
Proof.
  intros Hty Hfmt. unfold createNode. rewrite Hty, bind_Ok.
  cbn [call_toUpperCase]. rewrite bind_Ok, Hfmt. reflexivity.
Qed.

(** Whether a node is built, and the error thrown otherwise, depends on the
    stage alone, not on the channel or the offset. *)
Lemma createNode_throw_anywhere (component : value num) (channelNo channelNo' : nat)
      (xPos xPos' : Z) (e : exn) :
  createNode component channelNo xPos = Throw e ->
  createNode component channelNo' xPos' = Throw e.
Proof.
  unfold createNode.
  destruct (Get component "type") as [ty|e0]; [|intros E; exact E].
  rewrite !bind_Ok.
  destruct (call_toUpperCase ty) as [upper|e0]; [|intros E; exact E].
  rewrite !bind_Ok.
  destruct (formatNodeContent component) as [html|e0]; [|intros E; exact E].
  rewrite !bind_Ok. intros E. discriminate E.
Qed.

Lemma createNodes_app (before after : list (value num)) (channelNo : nat) :
  forall xPos nodes,
    createNodes before channelNo xPos = Ok nodes ->
    createNodes (before ++ after) channelNo xPos =
    (more <- createNodes after channelNo
               (xPos + (nodeWidth + nodeSpacing) * Z.of_nat (List.length before)) ;;
     Ok (nodes ++ more)%list).
Proof.
  induction before as [|component before IH]; intros xPos nodes Hnodes.
  - injection Hnodes as <-. cbn [app List.length Z.of_nat].
    replace (xPos + (nodeWidth + nodeSpacing) * 0)%Z with xPos by lia.
    destruct (createNodes after channelNo xPos); reflexivity.
  - cbn [createNodes app] in *.
    destruct (createNode component channelNo xPos) as [node|e]; [|discriminate Hnodes].
    rewrite bind_Ok in *.
    destruct (createNodes before channelNo (xPos + (nodeWidth + nodeSpacing)))
      as [rest|e] eqn:Hrest; [|discriminate Hnodes].
    rewrite bind_Ok in Hnodes. injection Hnodes as <-.
    rewrite (IH _ _ Hrest).
    replace (xPos + (nodeWidth + nodeSpacing) +
             (nodeWidth + nodeSpacing) * Z.of_nat (List.length before))%Z
      with (xPos + (nodeWidth + nodeSpacing) *
                   Z.of_nat (List.length (component :: before)))%Z
      by (cbn [List.length]; lia).
    destruct (createNodes after channelNo _); reflexivity.
Qed.

Lemma createLane_first_failure_aux (channelNo : nat)
      (before after : list (value num)) (failing : value num)
      (nodes : list element) (e : exn) :
  createNodes before channelNo 10 = Ok nodes ->
  createNode failing 0 0 = Throw e ->
  createLane channelNo (before ++ failing :: after) = Throw e.
Proof.
  intros Hbefore Hfailing. unfold createLane.
  rewrite (createNodes_app before (failing :: after) channelNo 10 nodes Hbefore).
  cbn [createNodes].
  rewrite (createNode_throw_anywhere failing 0 channelNo 0 _ e Hfailing). reflexivity.
Qed.

(** X1. A lane is built from all of its stages or not at all: when the
    stages before one build and that one makes [createNode] throw,
    [createLane] throws the same error, whatever follows, and returns no
    lane. *)
Theorem createLane_first_failure (channelNo : nat)
        (before after : list (value num)) (failing : value num)
        (nodes : list element) (e : exn) :
  createNodes before channelNo 10 = Ok nodes ->
  createNode failing 0 0 = Throw e ->
  createLane channelNo (before ++ failing :: after) = Throw e.
Proof. apply createLane_first_failure_aux. Qed.

(** X2. A stage object whose [type] is missing or is not a string is
    formatted as [Unknown] without an error, but no node is built for it:
    [createNode] throws on the header. *)
Theorem stage_without_string_type (props : list (string * value num))
        (channelNo : nat) (xPos : Z) :
  (forall ty, prop "type" props <> VStr ty) ->
  formatNodeContent (VObj props) = Ok (detail "Unknown") /\
  exists e, createNode (VObj props) channelNo xPos = Throw e.
Proof.
  intros Hnot. split.
  - unfold formatNodeContent. rewrite Get_object, bind_Ok.
    destruct (prop "type" props) as [| | | |ty| |]; try reflexivity.
    destruct (Hnot ty eq_refl).
  - unfold createNode. rewrite Get_object, bind_Ok.
    destruct (prop "type" props) as [| | | |ty| |];
      try (eexists; reflexivity).
    destruct (Hnot ty eq_refl).
Qed.


(** X4. An [input] or [output] stage whose [device] is missing (or [null])
    is not degraded but fatal: formatting throws, no node is built, and no
    lane that contains the stage is built. *)
Theorem device_stage_without_device (props : list (string * value num))
        (ty : string) :
  lookup "type" props = Some (VStr ty) ->
  ty = "input" \/ ty = "output" ->
  nullish (prop "device" props) = true ->
  exists e,
    formatNodeContent (VObj props) = Throw e /\
    (forall channelNo xPos, createNode (VObj props) channelNo xPos = Throw e) /\
    (forall channelNo before after nodes,
        createNodes before channelNo 10 = Ok nodes ->
        createLane channelNo (before ++ VObj props :: after) = Throw e).
Proof.
  intros Hty Hio Hdev.
  assert (Hprop : prop "type" props = VStr ty)
    by (unfold prop; rewrite Hty; reflexivity).
  destruct (Get_nullish _ "device" Hdev) as [e He].
  exists e.
  assert (Hfmt : formatNodeContent (VObj props) = Throw e).
  { unfold formatNodeContent. rewrite Get_object, bind_Ok, Hprop.
    cbn [is_string].
    replace (String.eqb ty "input" || String.eqb ty "output") with true
      by (destruct Hio as [-> | ->]; reflexivity).
    rewrite Get_object, bind_Ok, He. reflexivity. }
  assert (Hnode : forall channelNo xPos,
             createNode (VObj props) channelNo xPos = Throw e).
  { intros channelNo xPos. apply (createNode_throws _ _ _ ty); [|exact Hfmt].
    rewrite Get_object, Hprop. reflexivity. }
  split; [exact Hfmt|]. split; [exact Hnode|].
  intros channelNo before after nodes Hbefore.
  apply (createLane_first_failure_aux _ _ _ _ nodes _ Hbefore (Hnode 0 0%Z)).
Qed.


End StageErrors.

(** ** Mixers and filters *)

Section StageFormats.
Context {num : Type} `{JSNumber num}.

(** X6. A mixer shows the number of its sources, in the singular for exactly
    one source and in the plural otherwise (also for none), provided the
    number type tells a length from 1 exactly. *)
Theorem mixer_source_count (props : list (string * value num))
        (sources : list (value num)) :
  lookup "type" props = Some (VStr "mixer") ->
  lookup "sources" props = Some (VArr sources) ->
  num_strict_eq (num_of_nat (List.length sources)) (num_of_nat 1) =
    Nat.eqb (List.length sources) 1 ->
  formatNodeContent (VObj props) =
    Ok (br 16 ++
        detail (num_to_string (num_of_nat (List.length sources)) ++
                (if Nat.eqb (List.length sources) 1 then " source" else " sources")) ++
        br 12).
Proof.
  intros Hty Hsources Hexact.
  unfold formatNodeContent. rewrite Get_object, bind_Ok.
  unfold prop at 1 2 3. rewrite Hty. cbn [is_string String.eqb Ascii.eqb Bool.eqb orb].
  rewrite Get_object, bind_Ok. unfold prop. rewrite Hsources.
  cbn [Get String.eqb Ascii.eqb Bool.eqb]. rewrite bind_Ok.
  cbn [ToString is_number]. rewrite Hexact.
  destruct (Nat.eqb (List.length sources) 1); reflexivity.
Qed.

Lemma formatFilter_named (props : list (string * value num)) (name : string) :
  filter_name props = Some name ->
  name <> EmptyString ->
  formatFilter (VObj props) = filterDetails name (prop name props).
Proof.
  intros Hname Hnonempty. unfold formatFilter, filterDetails.
  change (Object_keys (VObj props)) with (@Ok (list string) (map fst props)).
  rewrite bind_Ok. unfold filter_name in Hname. rewrite Hname.
  apply String.eqb_neq in Hnonempty. rewrite Hnonempty.
  rewrite Get_object, bind_Ok.
  destruct (Get (prop name props) "parameters") as [params|e]; [|reflexivity].
  rewrite !bind_Ok.
  destruct (Get (prop name props) "type") as [ftype|e]; [|reflexivity].
  rewrite !bind_Ok.
  destruct (is_string ftype "Biquad"); [|reflexivity].
  destruct (Get params "type") as [ptype|e]; [|reflexivity]. rewrite !bind_Ok.
  destruct (Get params "freq") as [freq|e]; [|reflexivity]. rewrite !bind_Ok.
  destruct (Get params "gain") as [gain|e]; [|reflexivity]. rewrite !bind_Ok.
  unfold details_markup.
  destruct (ToBoolean freq), (is_defined gain);
    cbn [map String.concat app append]; rewrite ?append_assoc; reflexivity.
Qed.

Lemma find_key_is_key (p : string -> bool) (keys : list string) (k : string) :
  find_key p keys = Some k -> p k = true.
Proof.
  induction keys as [|k' keys IH]; [discriminate|]. cbn [find_key].
  destruct (p k') eqn:Hp; [|exact IH]. intros E. injection E as <-. exact Hp.
Qed.

(** X7. A filter stage is formatted from its first key other than [type]
    alone: further keys of the stage, named filters included, change
    nothing. *)
Theorem filter_first_name_only (props : list (string * value num)) (name : string) :
  lookup "type" props = Some (VStr "filter") ->
  filter_name props = Some name ->
  formatNodeContent (VObj props) =
  formatNodeContent (VObj [("type", VStr "filter"); (name, prop name props)]).
Proof.
  intros Hty Hname.
  assert (Hkey : String.eqb name "type" = false).
  { apply find_key_is_key in Hname. destruct (String.eqb name "type");
      [discriminate Hname|reflexivity]. }
  rewrite (formatNodeContent_filter _ Hty).
  rewrite (formatNodeContent_filter [("type", VStr "filter"); (name, prop name props)])
    by reflexivity.
  destruct (String.eqb name EmptyString) eqn:Hempty.
  - apply String.eqb_eq in Hempty. subst name.
    unfold formatFilter.
    change (Object_keys (VObj props)) with (@Ok (list string) (map fst props)).
    unfold filter_name in Hname. rewrite bind_Ok, Hname. reflexivity.
  - apply String.eqb_neq in Hempty.
    rewrite (formatFilter_named props name Hname Hempty).
    rewrite (formatFilter_named [("type", VStr "filter"); (name, prop name props)] name).
    + f_equal. unfold prop at 2. cbn [lookup].
      rewrite String.eqb_sym, Hkey, String.eqb_refl. reflexivity.
    + unfold filter_name. cbn [map fst find_key]. rewrite Hkey. reflexivity.
    + exact Hempty.
Qed.



(** X10. A [Biquad] or [Gain] filter without parameters is fatal: formatting
    throws and no node is built. *)
Theorem filter_without_parameters_throws (props spec : list (string * value num))
        (name ftype : string) :
  lookup "type" props = Some (VStr "filter") ->
  filter_name props = Some name ->
  name <> EmptyString ->
  lookup name props = Some (VObj spec) ->
  lookup "type" spec = Some (VStr ftype) ->
  ftype = "Biquad" \/ ftype = "Gain" ->
  nullish (prop "parameters" spec) = true ->
  exists e,
    formatNodeContent (VObj props) = Throw e /\
    forall channelNo xPos, createNode (VObj props) channelNo xPos = Throw e.
Proof.
  intros Hty Hname Hnonempty Hspec Hftype Hkind Hparams.
  destruct (Get_nullish (prop "parameters" spec) "type" Hparams) as [e1 He1].
  destruct (Get_nullish (prop "parameters" spec) "gain" Hparams) as [e2 He2].
  assert (Hfmt : exists e, formatNodeContent (VObj props) = Throw e).
  { rewrite (formatNodeContent_filter _ Hty),
      (formatFilter_named props name Hname Hnonempty).
    unfold prop at 1. rewrite Hspec. unfold filterDetails.
    rewrite Get_object, bind_Ok, Get_object, bind_Ok.
    replace (prop "type" spec) with (@VStr num ftype)
      by (unfold prop; rewrite Hftype; reflexivity).
    destruct Hkind as [-> | ->]; cbn [is_string String.eqb Ascii.eqb Bool.eqb].
    - rewrite He1. eexists; reflexivity.
    - rewrite He2. eexists; reflexivity. }
  destruct Hfmt as [e Hfmt]. exists e. split; [exact Hfmt|].
  intros channelNo xPos. apply (createNode_throws _ _ _ "filter"); [|exact Hfmt].
  rewrite Get_object. unfold prop. rewrite Hty. reflexivity.
Qed.

End StageFormats.

(** ** A render pass that fails, and the initial load *)

Section PageOutcomes.
Context {num : Type} `{JSNumber num}.

Lemma withLanes_nil (s : page) : withLanes [] s = s.
Proof.
  unfold withLanes. cbn [map]. rewrite !app_nil_r.
  destruct s as [d l [ed|] f]; reflexivity.
Qed.

(** The pass stops at the first channel whose lane cannot be built; the
    lanes before it stay appended. *)
Lemma appendLanes_failure (before after : channels) (failing : list (value num))
      (e : exn) :
  forall channelNo built (s : page),
    buildLanes before channelNo = Ok built ->
    createLane (channelNo + List.length before) failing = Throw e ->
    appendLanes (before ++ failing :: after)%list channelNo s =
    (withLanes built s, Throw e).
Proof.
  induction before as [|components before IH]; intros channelNo built s Hbuilt Hfail.
  - injection Hbuilt as <-. cbn [app appendLanes List.length] in *.
    rewrite Nat.add_0_r in Hfail. rewrite Hfail, withLanes_nil. reflexivity.
  - cbn [buildLanes] in Hbuilt. cbn [app appendLanes].
    destruct (createLane channelNo components) as [[lane request]|e0];
      [|discriminate Hbuilt].
    rewrite bind_Ok in Hbuilt.
    destruct (buildLanes before (S channelNo)) as [more|e0] eqn:Hmore;
      [|discriminate Hbuilt].
    rewrite bind_Ok in Hbuilt. injection Hbuilt as <-.
    rewrite (IH (S channelNo) more _ Hmore)
      by (cbn [List.length] in Hfail; rewrite <- Nat.add_succ_comm in Hfail; exact Hfail).
    unfold withLanes. cbn [DSP lanes editor frames map fst snd].
    rewrite <- !app_assoc. destruct (editor s); reflexivity.
Qed.

Lemma elements_set_innerHTML (ed : element) (html : string) :
  elements (childNodes (set_innerHTML ed html)) = [].
Proof. destruct ed. cbn. destruct (String.eqb html EmptyString); reflexivity. Qed.

Lemma set_innerHTML_appendChild (ed x : element) (html : string) :
  set_innerHTML (appendChild ed x) html = set_innerHTML ed html.
Proof. destruct ed; reflexivity. Qed.

Lemma set_innerHTML_twice (ed : element) (html html' : string) :
  set_innerHTML (set_innerHTML ed html) html' = set_innerHTML ed html'.
Proof. destruct ed; reflexivity. Qed.

Lemma set_innerHTML_appendChildren (l : list element) (html : string) :
  forall ed, set_innerHTML (appendChildren ed l) html = set_innerHTML ed html.
Proof.
  unfold appendChildren. induction l as [|x l IH]; intros ed; [reflexivity|].
  cbn [fold_left]. rewrite IH. apply set_innerHTML_appendChild.
Qed.

Lemma showError_editor (msg : string) (s : page) :
  editor (showError msg s) =
  option_map (fun ed => set_innerHTML ed (errorPanel msg)) (editor s).
Proof.
  unfold showError. destruct (editor s) as [ed|] eqn:Hed; [reflexivity|].
  rewrite Hed. reflexivity.
Qed.

Lemma showError_lanes (msg : string) (s : page) : lanes (showError msg s) = lanes s.
Proof. unfold showError. destruct (editor s); reflexivity. Qed.

Lemma showError_DSP (msg : string) (s : page) : DSP (showError msg s) = DSP s.
Proof. unfold showError. destruct (editor s); reflexivity. Qed.

(** A pass, completed or not, only appends to the editor. *)
Lemma appendLanes_appends (chans : channels) :
  forall channelNo (s s' : page) (r : result unit),
    appendLanes chans channelNo s = (s', r) ->
    exists built, s' = withLanes built s.
Proof.
  induction chans as [|components rest IH]; intros channelNo s s' r Hpass.
  - injection Hpass as <- _. exists []. symmetry. apply withLanes_nil.
  - cbn [appendLanes] in Hpass.
    destruct (createLane channelNo components) as [[lane request]|e].
    + destruct (IH _ _ _ _ Hpass) as [more ->].
      exists ((lane, request) :: more).
      unfold withLanes. cbn [DSP lanes editor frames map fst snd].
      rewrite <- !app_assoc. destruct (editor s); reflexivity.
    + injection Hpass as <- _. exists []. symmetry. apply withLanes_nil.
Qed.

(** X11. A render pass stops at the first channel whose lane cannot be
    built: the refresh rejects with that channel's error, the lanes of the
    channels before it stay in the editor and in the lane list, the channels
    after it are not rendered, and nothing tells the user. *)
Theorem refresh_stops_at_failing_channel (s : page) (ed : element) (d : dsp)
        (before after : channels) (failing : list (value num))
        (built : list (element * frameRequest)) (e : exn) :
  editor s = Some ed -> DSP s = Some d ->
  buildLanes before 0 = Ok built ->
  createLane (List.length before) failing = Throw e ->
  exists s',
    refreshPipeline (Ok tt) (Ok (before ++ failing :: after)%list) s = (s', Throw e) /\
    editor s' = Some (appendChildren (set_innerHTML ed EmptyString) (map fst built)) /\
    visibleLanes s' = map fst built /\
    lanes s' = map fst built /\
    List.length (visibleLanes s') = List.length before.
Proof.
  intros Hed Hdsp Hbuilt Hfail.
  exists (withLanes built (cleared ed s)).
  assert (Hvisible : visibleLanes (withLanes built (cleared ed s)) = map fst built).
  { rewrite (@visibleLanes_withLanes built (cleared ed s)
               (set_innerHTML ed EmptyString)) by reflexivity.
    rewrite visibleLanes_cleared. reflexivity. }
  split; [|split; [reflexivity|split; [exact Hvisible|split; [reflexivity|]]]].
  - unfold refreshPipeline, renderPipeline. rewrite Hdsp.
    rewrite (@renderPipeline_begin_ok s ed d Hed Hdsp). cbn [renderPipeline_resume].
    apply appendLanes_failure; assumption.
  - rewrite Hvisible, length_map.
    destruct (@buildLanes_spec _ _ before 0 built Hbuilt) as [Hlen _]. exact Hlen.
Qed.

(** X12. The initial load never rejects, and it ends in one of two ways: the
    editor holds the lanes of the whole configuration (the collaborator is
    connected, both requests succeed and every lane is built), or it holds
    the error panel alone, never lanes beside it and never a part of the
    lanes.  The panel says that there is no connection, or gives the message
    of the error that stopped the load. *)
Theorem roomOnLoad_outcome (s : page) (ed : element) (parentDSP : option dsp)
        (download : result unit) (linearize : result channels) :
  editor s = Some ed ->
  let s' := roomOnLoad parentDSP download linearize s in
  DSP s' = parentDSP /\
  ((exists d chans built,
       parentDSP = Some d /\ connected d = true /\
       download = Ok tt /\ linearize = Ok chans /\
       buildLanes chans 0 = Ok built /\
       editor s' = Some (appendChildren (set_innerHTML ed EmptyString) (map fst built)) /\
       visibleLanes s' = map fst built /\
       lanes s' = map fst built) \/
   (exists msg,
       editor s' = Some (set_innerHTML ed (errorPanel msg)) /\
       visibleLanes s' = [] /\
       ((msg = notConnectedMessage /\
         forall d, parentDSP = Some d -> connected d = false) \/
        (exists d e, parentDSP = Some d /\ connected d = true /\
                     msg = loadErrorMessage e)))).
Proof.
  intros Hed s'. subst s'.
  set (s0 := {| DSP := parentDSP; lanes := lanes s;
                editor := editor s; frames := frames s |}).
  assert (Hed0 : editor s0 = Some ed) by exact Hed.
  assert (Hpanel : forall msg (s1 : page) (ed1 : element),
             editor s1 = Some ed1 ->
             (forall html, set_innerHTML ed1 html = set_innerHTML ed html) ->
             editor (showError msg s1) = Some (set_innerHTML ed (errorPanel msg)) /\
             visibleLanes (showError msg s1) = []).
  { intros msg s1 ed1 H1 Hshell.
    assert (E : editor (showError msg s1) = Some (set_innerHTML ed (errorPanel msg)))
      by (rewrite showError_editor, H1; cbn [option_map]; rewrite Hshell; reflexivity).
    split; [exact E|]. unfold visibleLanes. rewrite E. apply elements_set_innerHTML. }
  unfold roomOnLoad. fold s0.
  destruct parentDSP as [d|].
  2:{ cbn [negb]. split; [rewrite showError_DSP; reflexivity|]. right.
      exists notConnectedMessage.
      destruct (Hpanel notConnectedMessage s0 ed Hed0 (fun _ => eq_refl)) as [E V].
      split; [exact E|]. split; [exact V|]. left. split; [reflexivity|].
      intros d Hd. discriminate Hd. }
  destruct (connected d) eqn:Hc; cbn [negb].
  2:{ split; [rewrite showError_DSP; reflexivity|]. right.
      exists notConnectedMessage.
      destruct (Hpanel notConnectedMessage s0 ed Hed0 (fun _ => eq_refl)) as [E V].
      split; [exact E|]. split; [exact V|]. left. split; [reflexivity|].
      intros d' Hd. injection Hd as <-. exact Hc. }
  destruct download as [[]|e].
  2:{ split; [rewrite showError_DSP; reflexivity|]. right.
      exists (loadErrorMessage e).
      destruct (Hpanel (loadErrorMessage e) s0 ed Hed0 (fun _ => eq_refl)) as [E V].
      split; [exact E|]. split; [exact V|]. right. exists d, e. auto. }
  unfold renderPipeline.
  rewrite (@renderPipeline_begin_ok s0 ed d Hed0 eq_refl).
  destruct linearize as [chans|e]; cbn [renderPipeline_resume].
  2:{ split; [rewrite showError_DSP; reflexivity|]. right.
      exists (loadErrorMessage e).
      destruct (Hpanel (loadErrorMessage e) (cleared ed s0) (set_innerHTML ed EmptyString)
                       eq_refl (set_innerHTML_twice ed EmptyString)) as [E V].
      split; [exact E|]. split; [exact V|]. right. exists d, e. auto. }
  destruct (appendLanes chans 0 (cleared ed s0)) as [s1 r] eqn:Hpass.
  destruct r as [[]|e].
  - destruct (@appendLanes_completed _ _ chans 0 (cleared ed s0) s1 Hpass) as (built & Hbuilt & ->).
    split; [reflexivity|]. left. exists d, chans, built.
    repeat (split; [first [reflexivity | assumption]|]).
    split; [|reflexivity].
    rewrite (@visibleLanes_withLanes built (cleared ed s0)
               (set_innerHTML ed EmptyString)) by reflexivity.
    rewrite visibleLanes_cleared. reflexivity.
  - destruct (appendLanes_appends chans 0 (cleared ed s0) s1 (Throw e) Hpass)
      as [built ->].
    split; [rewrite showError_DSP; reflexivity|]. right.
    exists (loadErrorMessage e).
    destruct (Hpanel (loadErrorMessage e) (withLanes built (cleared ed s0))
                     (appendChildren (set_innerHTML ed EmptyString) (map fst built))
                     eq_refl) as [E V].
    { intros html. rewrite set_innerHTML_appendChildren. apply set_innerHTML_twice. }
    split; [exact E|]. split; [exact V|]. right. exists d, e. auto.
Qed.

(** X13. [showError] replaces whatever the editor shows, lanes or an earlier
    error, by the panel of its message; it leaves the lane list as it is, so
    lanes that are no longer shown stay listed. *)
Theorem showError_replaces (msg : string) (s : page) :
  visibleLanes (showError msg s) = [] /\
  lanes (showError msg s) = lanes s /\
  (forall ed, editor s = Some ed ->
              exists ed', editor (showError msg s) = Some ed' /\
                          innerHTML ed' = Some (errorPanel msg)) /\
  (forall msg', showError msg' (showError msg s) = showError msg' s).
Proof.
  split; [|split; [apply showError_lanes|split]].
  - unfold visibleLanes. rewrite showError_editor.
    destruct (editor s) as [ed|]; [|reflexivity].
    cbn [option_map]. apply elements_set_innerHTML.
  - intros ed Hed. exists (set_innerHTML ed (errorPanel msg)).
    split; [rewrite showError_editor, Hed; reflexivity|].
    destruct ed. reflexivity.
  - intros msg'. unfold showError at 2.
    destruct (editor s) as [ed|] eqn:Hed; [|reflexivity].
    unfold showError. cbn [editor DSP lanes frames]. rewrite Hed.
    rewrite set_innerHTML_twice. reflexivity.
Qed.

End PageOutcomes.

(** ** What every pass keeps *)

Section PassInvariants.
Context {num : Type} `{JSNumber num}.

Lemma appendLanes_keeps_lanes_in_editor (chans : channels) :
  forall channelNo (s s' : page) (r : result unit),
    lanes_in_editor s ->
    appendLanes chans channelNo s = (s', r) ->
    lanes_in_editor s'.
Proof.
  intros channelNo s s' r (ed & Hed & Hlanes) Hpass.
  destruct (appendLanes_appends chans channelNo s s' r Hpass) as [built ->].
  exists (appendChildren ed (map fst built)). split.
  - apply editor_withLanes, Hed.
  - rewrite lanes_withLanes, Hlanes, childNodes_appendChildren, elements_app,
      elements_map. reflexivity.
Qed.

Lemma resume_keeps_lanes_in_editor (t t' : task) (s s' : page) :
  lanes_in_editor s -> resume t s = (s', t') -> lanes_in_editor s'.
Proof.
  intros Hinv Hstep. destruct t as [[[]|e] linearize|[chans|e]|r]; cbn [resume] in Hstep.
  - destruct Hinv as (ed & Hed & _).
    unfold renderPipeline_begin in Hstep. rewrite Hed in Hstep. cbn [DSP] in Hstep.
    exists (set_innerHTML ed EmptyString).
    destruct (DSP s); injection Hstep as <- _;
      (split; [reflexivity|]); cbn [lanes]; symmetry; apply elements_set_innerHTML.
  - injection Hstep as <- _. exact Hinv.
  - cbn [renderPipeline_resume] in Hstep.
    destruct (appendLanes chans 0 s) as [s1 r] eqn:Hpass.
    injection Hstep as <- _.
    exact (appendLanes_keeps_lanes_in_editor chans 0 s s1 r Hinv Hpass).
  - cbn [renderPipeline_resume] in Hstep. injection Hstep as <- _. exact Hinv.
  - injection Hstep as <- _. exact Hinv.
Qed.

(** X14. The lane list never parts from the editor through refreshes: when
    the list holds exactly the lanes of the editor, it still does after any
    steps of two refreshes in flight, in any order, whether their requests
    succeed or fail and whether or not every lane can be built. *)
Theorem refreshes_keep_lanes_in_editor (schedule : list bool) :
  forall (s s' : page) (first second first' second' : task),
    lanes_in_editor s ->
    run schedule s first second = Some (s', first', second') ->
    lanes_in_editor s'.
Proof.
  induction schedule as [|next schedule IH];
    intros s s' first second first' second' Hinv Hrun.
  - injection Hrun as <- _ _. exact Hinv.
  - cbn [run] in Hrun. destruct next.
    + destruct (settled second); [discriminate Hrun|].
      destruct (resume second s) as [s1 t1] eqn:Hstep.
      apply (IH s1 s' first t1 first' second'); [|exact Hrun].
      exact (resume_keeps_lanes_in_editor second t1 s s1 Hinv Hstep).
    + destruct (settled first); [discriminate Hrun|].
      destruct (resume first s) as [s1 t1] eqn:Hstep.
      apply (IH s1 s' t1 second first' second'); [|exact Hrun].
      exact (resume_keeps_lanes_in_editor first t1 s s1 Hinv Hstep).
Qed.



End PassInvariants.

Lemma resume_linearize_fails {num : Type} `{JSNumber num} (s : page) (e : exn) :
  resume (AwaitLinearize (Throw e)) s = (s, Settled (Throw e)).
Proof. reflexivity. Qed.

Lemma innerHTML_emptied_not_panel (ed : element) (msg : string) :
  innerHTML (set_innerHTML ed EmptyString) <> Some (errorPanel msg).
Proof. destruct ed. cbn. intros E. discriminate E. Qed.

Lemma innerHTML_lanes_not_panel (ed : element) (l : list element) (msg : string) :
  innerHTML (appendChildren (set_innerHTML ed EmptyString) l) <> Some (errorPanel msg).
Proof.
  unfold innerHTML. rewrite childNodes_appendChildren.
  replace (childNodes (set_innerHTML ed EmptyString)) with (@nil node)
    by (destruct ed; reflexivity).
  destruct l as [|x [|y l]]; cbn; intros E; discriminate E.
Qed.

Ltac run_step_failing Hrun built2 :=
  cbn [run settled] in Hrun;
  first
    [ erewrite resume_download in Hrun by eauto with page
    | rewrite (resume_linearize _ _ built2) in Hrun
    | rewrite resume_linearize_fails in Hrun ].

Section OverlapFailure.
Context {num : Type} `{JSNumber num}.

(** X16. A refresh whose linearization fails has emptied the editor and
    shows nothing.  In flight with a refresh that succeeds, it leaves the
    lanes of that refresh when it emptied the editor before they were built,
    and an empty editor when it emptied the editor after. *)
Theorem failing_refresh_beside_another (s : page) (ed : element) (d : dsp)
        (chans2 : channels) (built2 : list (element * frameRequest)) (e : exn)
        (schedule : list bool) (s' : page) (r1 r2 : result unit) :
  editor s = Some ed -> DSP s = Some d ->
  buildLanes chans2 0 = Ok built2 ->
  run schedule s
      (refreshPipeline_call (Ok tt) (Throw e) s)
      (refreshPipeline_call (Ok tt) (Ok chans2) s)
    = Some (s', Settled r1, Settled r2) ->
  r1 = Throw e /\ r2 = Ok tt /\
  (forall msg, innerHTML_of_editor s' <> Some (errorPanel msg)) /\
  ((schedule = [true; true; false; false] /\
    visibleLanes s' = [] /\ lanes s' = []) \/
   (schedule <> [true; true; false; false] /\
    visibleLanes s' = map fst built2 /\ lanes s' = map fst built2)).
Proof.
  intros Hed Hdsp Hb2 Hrun.
  unfold refreshPipeline_call in Hrun. rewrite Hdsp in Hrun.
  destruct schedule as [|b1 [|b2 [|b3 [|b4 [|b5 rest]]]]];
    repeat match goal with b : bool |- _ => destruct b end;
    repeat run_step_failing Hrun Hb2;
    cbn [run settled] in Hrun;
    try discriminate Hrun;
    injection Hrun as <- <- <-;
    (split; [reflexivity|]); (split; [reflexivity|]);
    (split; [intros msg; unfold innerHTML_of_editor;
             repeat first [ rewrite editor_cleared
                          | erewrite editor_withLanes by eauto with page ];
             first [ apply innerHTML_emptied_not_panel
                   | apply innerHTML_lanes_not_panel ] |]);
    visible_lanes; rewrite ?app_nil_r;
    first [ left; repeat split; reflexivity
          | right; repeat split; try reflexivity; intros E; discriminate E ].
Qed.

End OverlapFailure.

(** ** Short lanes, and stages of the data model *)

Section ShortLanes.
Context {num : Type} `{JSNumber num}.
Variable layout : element -> DOMRect num.


End ShortLanes.

Section DataModel.
Context {num : Type} `{JSNumber num}.


End DataModel.

(** ** A document without the editor element *)

Section WithoutEditor.
Context {num : Type} `{JSNumber num}.

(** X19. Without an element [editor] nothing is rendered and nothing is
    reported: the initial load only records the collaborator, whatever the
    connection and the requests do, and a refresh whose download succeeds
    resolves with the page untouched, without looking at the linearized
    configuration. *)
Theorem nothing_happens_without_editor (s : page) (parentDSP : option dsp)
        (download : result unit) (linearize : result channels) :
  editor s = None ->
  roomOnLoad parentDSP download linearize s =
    {| DSP := parentDSP; lanes := lanes s; editor := None; frames := frames s |} /\
  (forall d, DSP s = Some d ->
             refreshPipeline (Ok tt) linearize s = (s, Ok tt)).
Proof.
  intros Hnone. split.
  - unfold roomOnLoad, renderPipeline, renderPipeline_begin, showError.
    cbn [editor]. rewrite Hnone.
    destruct parentDSP as [d|]; cbn [negb]; [|reflexivity].
    destruct (connected d); cbn [negb]; [|reflexivity].
    destruct download; reflexivity.
  - intros d Hdsp. unfold refreshPipeline, renderPipeline, renderPipeline_begin.
    rewrite Hdsp, Hnone. reflexivity.
Qed.

End WithoutEditor.

(** ** The further properties on concrete stages and pages *)

Import Scenarios.

(** A lane of an input, an input without device and an output is not built. *)
Lemma createLane_first_failure_example :
  createLane 0 [stage_input; input_without_device; stage_output] = Throw device_error.
Proof.
  exact (@createLane_first_failure Z Z_JSNumber 0 [stage_input] [stage_output]
           input_without_device [input_node] device_error eq_refl eq_refl).
Defined.

(** A stage without a type is formatted as [Unknown] and builds no node. *)
Lemma stage_without_string_type_example :
  formatNodeContent untyped_stage = Ok (detail "Unknown") /\
  exists e, createNode untyped_stage 0 10 = Throw e.
Proof.
  apply (@stage_without_string_type Z Z_JSNumber
           [("device", VObj [("device", VStr "hw:0"); ("format", VStr "S32LE")])]
           0 10%Z).
  intros ty E. discriminate E.
Defined.


(** The input stage without device throws wherever it stands. *)
Lemma device_stage_without_device_example :
  exists e,
    formatNodeContent input_without_device = Throw e /\
    (forall channelNo xPos, createNode input_without_device channelNo xPos = Throw e) /\
    (forall channelNo before after nodes,
        createNodes before channelNo 10 = Ok nodes ->
        createLane channelNo (before ++ input_without_device :: after) = Throw e).
Proof.
  exact (@device_stage_without_device Z Z_JSNumber [("type", VStr "input")] "input"
           eq_refl (or_introl eq_refl) eq_refl).
Defined.


(** One source is shown in the singular, two in the plural. *)
Lemma mixer_source_count_example :
  formatNodeContent (mixer_stage [VNum 0%Z]) =
    Ok (br 16 ++ detail "1 source" ++ br 12) /\
  formatNodeContent (mixer_stage [VNum 0%Z; VNum 1%Z]) =
    Ok (br 16 ++ detail "2 sources" ++ br 12).
Proof.
  split.
  - exact (@mixer_source_count Z Z_JSNumber
             [("type", VStr "mixer"); ("sources", VArr [VNum 0%Z])] [VNum 0%Z]
             eq_refl eq_refl eq_refl).
  - exact (@mixer_source_count Z Z_JSNumber
             [("type", VStr "mixer"); ("sources", VArr [VNum 0%Z; VNum 1%Z])]
             [VNum 0%Z; VNum 1%Z] eq_refl eq_refl eq_refl).
Defined.

(** A second named key changes nothing. *)
Lemma filter_first_name_only_example :
  formatNodeContent (room_filter_two_keys gain_spec) =
  formatNodeContent (room_filter gain_spec).
Proof.
  exact (@filter_first_name_only Z Z_JSNumber
           [("type", VStr "filter"); ("Room", VObj gain_spec);
            ("Other", VObj [("type", VStr "Conv")])]
           "Room" eq_refl eq_refl).
Defined.



(** A Biquad filter without parameters throws. *)
Lemma filter_without_parameters_throws_example :
  exists e,
    formatNodeContent (room_filter biquad_spec_without_parameters) = Throw e /\
    forall channelNo xPos,
      createNode (room_filter biquad_spec_without_parameters) channelNo xPos = Throw e.
Proof.
  exact (@filter_without_parameters_throws Z Z_JSNumber
           [("type", VStr "filter"); ("Room", VObj biquad_spec_without_parameters)]
           biquad_spec_without_parameters "Room" "Biquad"
           eq_refl eq_refl ltac:(discriminate) eq_refl eq_refl (or_introl eq_refl) eq_refl).
Defined.

(** Of three channels whose second is broken, the first alone is shown. *)
Lemma refresh_stops_at_failing_channel_example :
  exists s',
    refreshPipeline (Ok tt) (Ok broken_channels) rendered_page = (s', Throw device_error) /\
    visibleLanes s' = [lane0] /\ lanes s' = [lane0].
Proof.
  destruct (@refresh_stops_at_failing_channel Z Z_JSNumber rendered_page
              (appendChild (createElement "div") lane0) {| connected := true |}
              [channel0] [channel0] [stage_input; input_without_device]
              [built0] device_error eq_refl eq_refl eq_refl eq_refl)
    as (s' & Hrefresh & _ & Hvisible & Hlanes & _).
  exists s'. split; [exact Hrefresh|]. split; [exact Hvisible|exact Hlanes].
Defined.

(** The initial load of the broken configuration ends with the error panel
    alone. *)
Lemma roomOnLoad_outcome_example :
  let s' := roomOnLoad (Some {| connected := true |}) (Ok tt) (Ok broken_channels)
                       empty_page in
  visibleLanes s' = [] /\
  innerHTML_of_editor s' = Some (errorPanel (loadErrorMessage device_error)).
Proof.
  destruct (@roomOnLoad_outcome Z Z_JSNumber empty_page (createElement "div")
              (Some {| connected := true |}) (Ok tt) (Ok broken_channels) eq_refl)
    as [_ [(d & chans & built & _ & _ & _ & Hchans & Hbuilt & _) | (msg & _ & Hvisible & _)]].
  - injection Hchans as <-. discriminate Hbuilt.
  - split; [exact Hvisible|reflexivity].
Defined.

(** After a failed download beside a pass that stops at its second channel,
    the lane list still holds the lanes of the editor. *)
Lemma refreshes_keep_lanes_in_editor_example : lanes_in_editor mixed_page.
Proof.
  apply (@refreshes_keep_lanes_in_editor Z Z_JSNumber [false; true; true]
           empty_page mixed_page
           (AwaitDownload (Throw device_error) (Ok [channel0]))
           (AwaitDownload (Ok tt) (Ok broken_channels))
           (Settled (Throw device_error)) (Settled (Throw device_error))).
  - exists (createElement "div"). split; reflexivity.
  - reflexivity.
Defined.


(** The failing refresh, resumed last, leaves an empty editor. *)
Lemma failing_refresh_beside_another_example :
  visibleLanes late_failure_page = [] /\ lanes late_failure_page = [].
Proof.
  destruct (@failing_refresh_beside_another Z Z_JSNumber rendered_page
              (appendChild (createElement "div") lane0) {| connected := true |}
              [channel0] [built0] device_error [true; true; false; false]
              late_failure_page (Throw device_error) (Ok tt)
              eq_refl eq_refl eq_refl eq_refl)
    as (_ & _ & _ & [(_ & Hvisible & Hlanes) | (Hother & _)]).
  - split; [exact Hvisible|exact Hlanes].
  - destruct (Hother eq_refl).
Defined.



(** Without the editor, the load of the broken configuration changes nothing
    and the refresh resolves. *)
Lemma nothing_happens_without_editor_example :
  roomOnLoad (Some {| connected := true |}) (Ok tt) (Ok broken_channels)
             page_without_editor = page_without_editor /\
  refreshPipeline (Ok tt) (Ok broken_channels) page_without_editor =
    (page_without_editor, Ok tt).
Proof.
  destruct (@nothing_happens_without_editor Z Z_JSNumber page_without_editor
              (Some {| connected := true |}) (Ok tt) (Ok broken_channels) eq_refl)
    as [Hload Hrefresh].
  split; [exact Hload | exact (Hrefresh _ eq_refl)].
Defined.
